(** * The agent orchestration loop of the Python service template

    A shallow embedding of [src/models/__init__.py], [src/tools/__init__.py],
    [src/agents/__init__.py] and the chat route of [src/api/chat.py].

    Python code that raises, mutates lists and calls out to a language-model
    backend is written in a small state-and-exception monad [M]: the state
    holds the store of list objects (so that aliasing of the caller's message
    list is visible), the state of everything outside the process (backends,
    clock, evaluator) and a log of the calls the loop makes to its provider
    and to its tools. *)

From Stdlib Require Import ZArith.
From Stdlib Require QArith.
From stdpp Require Import base strings gmap list pretty.

Open Scope string_scope.
Open Scope list_scope.
Open Scope Z_scope.

(** ** Python values and exceptions *)

(** A value of type [Any].  [None], booleans, integers and strings are
    concrete.  An object of any other class (a float, a list, a dict) is
    given by the two methods the loop calls on a tool result: [__bool__]
    and [__str__]; the float [0.0] is [PyObj false "0.0"]. *)
Inductive Any : Type :=
| PyNone
| PyBool (b : bool)
| PyInt (n : Z)
| PyStr (s : string)
| PyObj (truthy : bool) (shown : string).

(** [bool(v)] *)
Definition py_bool (v : Any) : bool :=
  match v with
  | PyNone => false
  | PyBool b => b
  | PyInt n => negb (n =? 0)
  | PyStr s => negb (String.eqb s "")
  | PyObj t _ => t
  end.

(** [str(v)] *)
Definition py_str (v : Any) : string :=
  match v with
  | PyNone => "None"
  | PyBool true => "True"
  | PyBool false => "False"
  | PyInt n => pretty n
  | PyStr s => s
  | PyObj _ r => r
  end.

(** A raised exception: its class and [str(e)].  [PyExn] is an instance of
    [Exception]; [PyBaseExn] is an instance of [BaseException] that is not
    one of [Exception] ([KeyboardInterrupt], [SystemExit], a bare
    [BaseException]).  [HTTPException] is kept apart because the route
    builds it from a status code and a detail. *)
Inductive Exn : Type :=
| PyExn (cls : string) (msg : string)
| PyBaseExn (cls : string) (msg : string)
| HTTPException (status_code : Z) (detail : string).

Definition exn_class (e : Exn) : string :=
  match e with
  | PyExn c _ => c
  | PyBaseExn c _ => c
  | HTTPException _ _ => "HTTPException"
  end.

Definition exn_str (e : Exn) : string :=
  match e with
  | PyExn _ m => m
  | PyBaseExn _ m => m
  | HTTPException c d => pretty c +:+ ": " +:+ d
  end.

(** [isinstance(e, Exception)]: what [except Exception] catches. *)
Definition is_exception (e : Exn) : bool :=
  match e with
  | PyBaseExn _ _ => false
  | _ => true
  end.

(** Truthiness of the containers the loop tests. *)
Definition truthy_list {A} (l : list A) : bool :=
  match l with [] => false | _ => true end.

Definition truthy_opt_list {A} (o : option (list A)) : bool :=
  match o with None => false | Some l => truthy_list l end.

Definition truthy_opt_str (o : option string) : bool :=
  match o with None => false | Some s => negb (String.eqb s "") end.

(** ** [src/models/__init__.py] *)

Inductive MessageRole : Type := USER | ASSISTANT | SYSTEM | TOOL.

Definition MessageRole_value (r : MessageRole) : string :=
  match r with
  | USER => "user"
  | ASSISTANT => "assistant"
  | SYSTEM => "system"
  | TOOL => "tool"
  end.

#[global] Instance MessageRole_eq_dec : EqDecision MessageRole.
Proof. solve_decision. Defined.

Inductive AIProviderName : Type := ANTHROPIC | OPENAI.

Definition AIProviderName_value (p : AIProviderName) : string :=
  match p with
  | ANTHROPIC => "anthropic"
  | OPENAI => "openai"
  end.

Record ToolCall : Type := mkToolCall {
  tc_id : string;
  tc_name : string;
  tc_arguments : gmap string Any
}.

Record Message : Type := mkMessage {
  role : MessageRole;
  content : string;
  name : option string;
  tool_call_id : option string;
  tool_calls : option (list ToolCall);
  metadata : option (gmap string Any)
}.

Record ToolResult : Type := mkToolResult {
  tr_tool_call_id : string;
  tr_result : Any;
  tr_error : option string
}.

Record AgentConfig : Type := mkAgentConfig {
  cfg_id : string;
  cfg_name : string;
  cfg_description : option string;
  cfg_system_prompt : string;
  cfg_provider : AIProviderName;
  cfg_model : string;
  cfg_temperature : QArith_base.Q;
  cfg_max_tokens : option Z;
  cfg_tools : list string
}.

(** The one validation Pydantic performs on a [Message] whose arguments are
    already of the declared types: [role] and [content] have no default and
    are required, the four other fields default to [None].  The class
    declares no validator. *)
Definition Message_new (role : option MessageRole) (content : option string)
    (name tool_call_id : option string) (tool_calls : option (list ToolCall))
    (metadata : option (gmap string Any)) : Exn + Message :=
  match role, content with
  | Some r, Some c => inr (mkMessage r c name tool_call_id tool_calls metadata)
  | None, _ => inl (PyExn "ValidationError" "role: Field required")
  | _, None => inl (PyExn "ValidationError" "content: Field required")
  end.

(** The invariant of section 3 of the specification, in the specification's
    words: a tool message carries the identifier of the call it answers; the
    tool-call list of an assistant message, when present, is non-empty and
    its identifiers are pairwise distinct.  Nothing in the source computes
    this; it is here to be compared with [Message_new]. *)
Definition spec_message_invariant (m : Message) : bool :=
  match role m with
  | TOOL => bool_decide (is_Some (tool_call_id m))
  | ASSISTANT =>
      match tool_calls m with
      | None => true
      | Some tcs => truthy_list tcs && bool_decide (NoDup (tc_id <$> tcs))
      end
  | _ => true
  end.

(** ** The world outside the process

    [W] is the state of everything the process does not own: the two model
    backends, the clock, the interpreter behind [eval].  A call that leaves
    the process reads and updates [W] and returns a value or raises. *)
Definition Ext (W A : Type) : Type := W -> (Exn + A) * W.

(** ** [src/tools/__init__.py] *)

(** The JSON schema literals of the tool classes. *)
Local Unset Elimination Schemes.
Inductive Json : Type :=
| JStr (s : string)
| JList (l : list Json)
| JObj (kv : list (string * Json)).
Local Set Elimination Schemes.

Record Tool (W : Type) : Type := mkTool {
  tool_name : string;
  tool_description : string;
  tool_parameters : Json;
  execute : gmap string Any -> Ext W Any
}.
Arguments mkTool {W}.
Arguments tool_name {W}.
Arguments tool_description {W}.
Arguments tool_parameters {W}.
Arguments execute {W}.

(** The dict built by [Tool.to_definition]. *)
Record ToolDef : Type := mkToolDef {
  td_name : string;
  td_description : string;
  td_input_schema : Json
}.

Definition to_definition {W} (t : Tool W) : ToolDef :=
  mkToolDef (tool_name t) (tool_description t) (tool_parameters t).

(** The bodies of the three built-in [execute] methods evaluate Python
    expressions, read the clock and parse JSON; they are taken as given. *)
Record ToolBodies (W : Type) : Type := mkToolBodies {
  calculator_execute : gmap string Any -> Ext W Any;
  current_time_execute : gmap string Any -> Ext W Any;
  json_parse_execute : gmap string Any -> Ext W Any
}.
Arguments mkToolBodies {W}.
Arguments calculator_execute {W}.
Arguments current_time_execute {W}.
Arguments json_parse_execute {W}.

Definition CalculatorTool {W} (b : ToolBodies W) : Tool W :=
  mkTool "calculator"
    "Perform mathematical calculations. Supports basic arithmetic, powers, roots, and common math functions."
    (JObj [("type", JStr "object");
           ("properties", JObj [
              ("expression", JObj [
                 ("type", JStr "string");
                 ("description", JStr "Mathematical expression to evaluate (e.g., '2 + 2', 'sqrt(16)', 'pow(2, 8)')")])]);
           ("required", JList [JStr "expression"])])
    (calculator_execute b).

Definition CurrentTimeTool {W} (b : ToolBodies W) : Tool W :=
  mkTool "current_time"
    "Get the current date and time in various formats."
    (JObj [("type", JStr "object");
           ("properties", JObj [
              ("format", JObj [
                 ("type", JStr "string");
                 ("description", JStr "Output format: 'iso', 'date', 'time', 'datetime'");
                 ("enum", JList [JStr "iso"; JStr "date"; JStr "time"; JStr "datetime"])]);
              ("timezone", JObj [
                 ("type", JStr "string");
                 ("description", JStr "Timezone (e.g., 'UTC', 'US/Eastern'). Default is UTC.")])]);
           ("required", JList [])])
    (current_time_execute b).

Definition JsonParseTool {W} (b : ToolBodies W) : Tool W :=
  mkTool "json_parse"
    "Parse a JSON string and optionally extract a specific path."
    (JObj [("type", JStr "object");
           ("properties", JObj [
              ("json_string", JObj [
                 ("type", JStr "string");
                 ("description", JStr "JSON string to parse")]);
              ("path", JObj [
                 ("type", JStr "string");
                 ("description", JStr "Optional dot-notation path to extract (e.g., 'data.items[0].name')")])]);
           ("required", JList [JStr "json_string"])])
    (json_parse_execute b).

(** The registry, in insertion order, and the dict it builds. *)
Definition TOOLS_items {W} (b : ToolBodies W) : list (string * Tool W) :=
  [("calculator", CalculatorTool b);
   ("current_time", CurrentTimeTool b);
   ("json_parse", JsonParseTool b)].

Definition TOOLS {W} (b : ToolBodies W) : gmap string (Tool W) :=
  list_to_map (TOOLS_items b).

Definition get_tool {W} (b : ToolBodies W) (name : string) : option (Tool W) :=
  TOOLS b !! name.

Fixpoint get_tool_definitions {W} (b : ToolBodies W) (tool_names : list string)
    : list ToolDef :=
  match tool_names with
  | [] => []
  | name :: rest =>
      match TOOLS b !! name with
      | Some tool => to_definition tool :: get_tool_definitions b rest
      | None => get_tool_definitions b rest
      end
  end.

Definition list_tools {W} (b : ToolBodies W) : list (string * string) :=
  (fun kt => (tool_name kt.2, tool_description kt.2)) <$> TOOLS_items b.

(** ** State, exceptions and the log of outgoing calls *)

(** A reference to a Python list object. *)
Abbreviation loc := positive.

(** The keyword arguments [Agent.chat] passes to [complete].  The outer
    [option] of [kw_max_tokens] says whether the key is present; its value
    may itself be [None]. *)
Record Kwargs : Type := mkKwargs {
  kw_temperature : option QArith_base.Q;
  kw_max_tokens : option (option Z)
}.

(** One entry of the log: a call of [provider.complete] with the contents
    of the list it is given, or a call of [tool.execute]. *)
Inductive Event : Type :=
| EvComplete (messages : list Message) (system_prompt : string)
    (tools : option (list ToolDef)) (kwargs : Kwargs)
| EvExecute (tool : string) (args : gmap string Any).

Definition is_complete (ev : Event) : bool :=
  match ev with EvComplete _ _ _ _ => true | EvExecute _ _ => false end.

Definition is_execute (ev : Event) : bool :=
  match ev with EvComplete _ _ _ _ => false | EvExecute _ _ => true end.

Record State (W : Type) : Type := mkState {
  heap : gmap loc (list Message);
  world : W;
  log : list Event
}.
Arguments mkState {W}.
Arguments heap {W}.
Arguments world {W}.
Arguments log {W}.

(** How a call ends: it returns, it raises, or the model's loop counter
    ran out (which [chat_spec] shows never happens). *)
Inductive Outcome (A : Type) : Type :=
| Returned (a : A)
| Raised (e : Exn)
| OutOfFuel.
Arguments Returned {A}.
Arguments Raised {A}.
Arguments OutOfFuel {A}.

Definition M (W A : Type) : Type := State W -> Outcome A * State W.

Section Monad.
Context {W : Type}.

Definition ret {A} (a : A) : M W A := fun s => (Returned a, s).

Definition bind {A B} (m : M W A) (k : A -> M W B) : M W B :=
  fun s =>
    match m s with
    | (Returned a, s') => k a s'
    | (Raised e, s') => (Raised e, s')
    | (OutOfFuel, s') => (OutOfFuel, s')
    end.

Definition raise {A} (e : Exn) : M W A := fun s => (Raised e, s).

Definition out_of_fuel {A} : M W A := fun s => (OutOfFuel, s).

(** [try: body except Exception as e: handler(e)]: an exception that is
    no instance of [Exception] passes through. *)
Definition try_except {A} (body : M W A) (handler : Exn -> M W A) : M W A :=
  fun s =>
    match body s with
    | (Raised e, s') => if is_exception e then handler e s' else (Raised e, s')
    | r => r
    end.

(** A call that leaves the process. *)
Definition call {A} (f : Ext W A) : M W A :=
  fun s =>
    match f (world s) with
    | (inr a, w) => (Returned a, mkState (heap s) w (log s))
    | (inl e, w) => (Raised e, mkState (heap s) w (log s))
    end.

Definition record (ev : Event) : M W unit :=
  fun s => (Returned tt, mkState (heap s) (world s) (log s ++ [ev])).

(** [list(l)] and a list display: a new list object. *)
Definition new_list (l : list Message) : M W loc :=
  fun s =>
    let r := fresh (dom (heap s)) in
    (Returned r, mkState (<[r := l]> (heap s)) (world s) (log s)).

(** The contents of a list object. *)
Definition read_list (r : loc) : M W (list Message) :=
  fun s => (Returned (heap s !!! r), s).

(** [r.append(m)] *)
Definition append (r : loc) (m : Message) : M W unit :=
  fun s =>
    (Returned tt,
     mkState (<[r := heap s !!! r ++ [m]]> (heap s)) (world s) (log s)).
End Monad.

Notation "'let*' x ':=' m 'in' k" := (bind m (fun x => k))
  (at level 10, x name, m at level 100, k at level 200,
   format "'[v' 'let*'  x  ':='  m  'in' '/' k ']'").
Notation "'do*' m 'in' k" := (bind m (fun _ => k))
  (at level 10, m at level 100, k at level 200,
   format "'[v' 'do*'  m  'in' '/' k ']'").

(** ** [src/agents/__init__.py]: the providers *)

(** [AIProvider.complete].  A provider reads the messages it is given and
    talks to its backend; it has no access to the list objects of the
    process (neither source provider writes to its [messages] argument). *)
Record AIProvider (W : Type) : Type := mkAIProvider {
  complete : list Message -> string -> option (list ToolDef) -> Kwargs ->
             Ext W Message
}.
Arguments mkAIProvider {W}.
Arguments complete {W}.

(** *** Anthropic *)

Record AnthropicRequest : Type := mkAnthropicRequest {
  areq_model : string;
  areq_max_tokens : option Z;
  areq_system : string;
  areq_messages : list (string * string);   (* role, content *)
  areq_tools : option (list ToolDef);       (* [None]: key absent *)
  areq_temperature : option QArith_base.Q   (* [None]: key absent *)
}.

Inductive ContentBlock : Type :=
| TextBlock (text : string)
| ToolUseBlock (id : string) (name : string) (input : gmap string Any)
| OtherBlock (type : string).

Record AnthropicResponse : Type := mkAnthropicResponse {
  aresp_content : list ContentBlock;
  aresp_input_tokens : Z;
  aresp_output_tokens : Z
}.

(** The list comprehension that builds [anthropic_messages]. *)
Definition anthropic_messages (messages : list Message) : list (string * string) :=
  (fun msg => (MessageRole_value (role msg), content msg)) <$>
  filter (fun msg => role msg = USER \/ role msg = ASSISTANT) messages.

Definition anthropic_request (model : string) (messages : list Message)
    (system_prompt : string) (tools : option (list ToolDef)) (kwargs : Kwargs)
    : AnthropicRequest :=
  mkAnthropicRequest model
    (match kw_max_tokens kwargs with Some v => v | None => Some 4096 end)
    system_prompt
    (anthropic_messages messages)
    (if truthy_opt_list tools then tools else None)
    (kw_temperature kwargs).

(** The loop over [response.content]: the last text block wins, tool-use
    blocks are collected in order. *)
Fixpoint anthropic_parse (blocks : list ContentBlock) (content : string)
    (tool_calls : list ToolCall) : string * list ToolCall :=
  match blocks with
  | [] => (content, tool_calls)
  | TextBlock text :: rest => anthropic_parse rest text tool_calls
  | ToolUseBlock id name input :: rest =>
      anthropic_parse rest content (tool_calls ++ [mkToolCall id name input])
  | OtherBlock _ :: rest => anthropic_parse rest content tool_calls
  end.

Definition anthropic_message (model : string) (response : AnthropicResponse)
    : Message :=
  let '(content, tool_calls) := anthropic_parse (aresp_content response) "" [] in
  mkMessage ASSISTANT content None None
    (if truthy_list tool_calls then Some tool_calls else None)
    (Some (list_to_map
       [("model", PyStr model);
        ("input_tokens", PyInt (aresp_input_tokens response));
        ("output_tokens", PyInt (aresp_output_tokens response))])).

Definition AnthropicProvider {W}
    (messages_create : AnthropicRequest -> Ext W AnthropicResponse)
    (model : string) : AIProvider W :=
  mkAIProvider (fun messages system_prompt tools kwargs w =>
    match messages_create
            (anthropic_request model messages system_prompt tools kwargs) w with
    | (inr response, w') => (inr (anthropic_message model response), w')
    | (inl e, w') => (inl e, w')
    end).

(** *** OpenAI *)

Record OpenAIRequest : Type := mkOpenAIRequest {
  oreq_model : string;
  oreq_messages : list (string * string);
  oreq_tools : option (list ToolDef);   (* each wrapped as a function tool *)
  oreq_temperature : option QArith_base.Q;
  oreq_max_tokens : option (option Z)
}.

Record OpenAIToolCall : Type := mkOpenAIToolCall {
  otc_id : string;
  otc_function_name : string;
  otc_function_arguments : string
}.

Record OpenAIResponse : Type := mkOpenAIResponse {
  (* [choices], each with [message.content] and [message.tool_calls] *)
  oresp_choices : list (option string * option (list OpenAIToolCall));
  (* [usage]: [prompt_tokens], [completion_tokens] *)
  oresp_usage : option (Z * Z)
}.

(** What the builtin [eval] hands back: a dict with string keys, or a value
    that [ToolCall] rejects because [arguments] is declared
    [dict[str, Any]]. *)
Inductive Evaluated : Type :=
| EvalDict (d : gmap string Any)
| EvalOther (v : Any).

Definition openai_request (model : string) (messages : list Message)
    (system_prompt : string) (tools : option (list ToolDef)) (kwargs : Kwargs)
    : OpenAIRequest :=
  mkOpenAIRequest model
    (("system", system_prompt) ::
     ((fun msg => (MessageRole_value (role msg), content msg)) <$> messages))
    (if truthy_opt_list tools then tools else None)
    (kw_temperature kwargs)
    (kw_max_tokens kwargs).

(** The list comprehension over [choice.message.tool_calls]; it stops at
    the first element whose construction raises.  [invalid v] is the text
    of the error Pydantic raises for an [arguments] value [v] that is no
    dict; the text is Pydantic's own and is taken as given. *)
Fixpoint openai_tool_calls {W} (eval : string -> Ext W Evaluated)
    (invalid : Any -> string)
    (tcs : list OpenAIToolCall) : Ext W (list ToolCall) :=
  fun w =>
    match tcs with
    | [] => (inr [], w)
    | tc :: rest =>
        match eval (otc_function_arguments tc) w with
        | (inl e, w') => (inl e, w')
        | (inr (EvalOther v), w') =>
            (inl (PyExn "ValidationError" (invalid v)), w')
        | (inr (EvalDict d), w') =>
            match openai_tool_calls eval invalid rest w' with
            | (inl e, w'') => (inl e, w'')
            | (inr l, w'') =>
                (inr (mkToolCall (otc_id tc) (otc_function_name tc) d :: l), w'')
            end
        end
    end.

Definition opt_int (o : option Z) : Any :=
  match o with Some n => PyInt n | None => PyNone end.

Definition OpenAIProvider {W}
    (completions_create : OpenAIRequest -> Ext W OpenAIResponse)
    (eval : string -> Ext W Evaluated)
    (invalid : Any -> string)
    (model : string) : AIProvider W :=
  mkAIProvider (fun messages system_prompt tools kwargs w =>
    match completions_create
            (openai_request model messages system_prompt tools kwargs) w with
    | (inl e, w') => (inl e, w')
    | (inr response, w') =>
        match oresp_choices response with
        | [] => (inl (PyExn "IndexError" "list index out of range"), w')
        | (msg_content, msg_tool_calls) :: _ =>
            let parsed :=
              if truthy_opt_list msg_tool_calls
              then match openai_tool_calls eval invalid
                           (default [] msg_tool_calls) w' with
                   | (inr l, w'') => (inr (Some l), w'')
                   | (inl e, w'') => (inl e, w'')
                   end
              else (inr None, w') in
            match parsed with
            | (inl e, w'') => (inl e, w'')
            | (inr tool_calls, w'') =>
                (inr (mkMessage ASSISTANT
                        (if truthy_opt_str msg_content
                         then default "" msg_content else "")
                        None None tool_calls
                        (Some (list_to_map
                           [("model", PyStr model);
                            ("input_tokens", opt_int (fst <$> oresp_usage response));
                            ("output_tokens", opt_int (snd <$> oresp_usage response))]))),
                 w'')
            end
        end
    end).

(** ** [src/agents/__init__.py]: the agent *)

Record Agent (W : Type) : Type := mkAgent {
  config : AgentConfig;
  provider : AIProvider W;
  tool_definitions : list ToolDef
}.
Arguments mkAgent {W}.
Arguments config {W}.
Arguments provider {W}.
Arguments tool_definitions {W}.

(** The advisory message returned when the loop gives up. *)
Definition limit_message : Message :=
  mkMessage ASSISTANT
    "I've reached the maximum number of steps. Please try again with a simpler request."
    None None None None.

(** [str(result.result) if result.result else result.error or ""]: the
    conditional expression binds weaker than [or]. *)
Definition tool_message_content (result : ToolResult) : string :=
  if py_bool (tr_result result) then py_str (tr_result result)
  else if truthy_opt_str (tr_error result) then default "" (tr_error result)
  else "".

Definition tool_message (tool_call : ToolCall) (result : ToolResult) : Message :=
  mkMessage TOOL (tool_message_content result) None (Some (tc_id tool_call))
    None None.

Section AgentLoop.
Context {W : Type} (bodies : ToolBodies W).

(** [Agent._execute_tool].  The call of [tool.execute] is entered in the
    log before it is made. *)
Definition _execute_tool (self : Agent W) (tool_call : ToolCall)
    : M W ToolResult :=
  try_except
    (match get_tool bodies (tc_name tool_call) with
     | None =>
         ret (mkToolResult (tc_id tool_call) PyNone
                (Some ("Tool not found: " +:+ tc_name tool_call)))
     | Some tool =>
         do* record (EvExecute (tool_name tool) (tc_arguments tool_call)) in
         let* result := call (execute tool (tc_arguments tool_call)) in
         ret (mkToolResult (tc_id tool_call) result None)
     end)
    (fun e => ret (mkToolResult (tc_id tool_call) PyNone (Some (exn_str e)))).

(** The [for tool_call in response.tool_calls] loop of [Agent.chat]. *)
Fixpoint dispatch (self : Agent W) (current_messages : loc)
    (tool_calls : list ToolCall) (tool_results : list ToolResult)
    : M W (list ToolResult) :=
  match tool_calls with
  | [] => ret tool_results
  | tool_call :: rest =>
      let* result := _execute_tool self tool_call in
      let tool_results := tool_results ++ [result] in
      do* append current_messages (tool_message tool_call result) in
      dispatch self current_messages rest tool_results
  end.

(** The keyword arguments of the one [complete] call site. *)
Definition chat_kwargs (self : Agent W) : Kwargs :=
  mkKwargs (Some (cfg_temperature (config self)))
           (Some (cfg_max_tokens (config self))).

Definition chat_tools (self : Agent W) : option (list ToolDef) :=
  if truthy_list (cfg_tools (config self))
  then Some (tool_definitions self) else None.

(** The [while iterations < max_iterations] loop of [Agent.chat].  [fuel]
    bounds the number of turns of the model's recursion; the loop test
    is the source's. *)
Fixpoint chat_loop (fuel : nat) (self : Agent W) (max_iterations : Z)
    (current_messages : loc) (tool_results : list ToolResult)
    (iterations : Z) : M W (Message * list ToolResult) :=
  if iterations <? max_iterations then
    match fuel with
    | O => out_of_fuel
    | S fuel =>
        let iterations := iterations + 1 in
        let* messages := read_list current_messages in
        do* record (EvComplete messages (cfg_system_prompt (config self))
                      (chat_tools self) (chat_kwargs self)) in
        let* response :=
          call (complete (provider self) messages
                  (cfg_system_prompt (config self))
                  (chat_tools self) (chat_kwargs self)) in
        if negb (truthy_opt_list (tool_calls response)) then
          ret (response, tool_results)
        else
          do* append current_messages response in
          let* tool_results :=
            dispatch self current_messages
              (default [] (tool_calls response)) tool_results in
          chat_loop fuel self max_iterations current_messages
            tool_results iterations
    end
  else ret (limit_message, tool_results).

(** [Agent.chat].  [messages] is the caller's list object. *)
Definition chat (self : Agent W) (messages : loc) (max_iterations : Z)
    : M W (Message * list ToolResult) :=
  let tool_results := [] in
  let* contents := read_list messages in
  let* current_messages := new_list contents in
  let iterations := 0 in
  chat_loop (Z.to_nat max_iterations) self max_iterations current_messages
    tool_results iterations.
End AgentLoop.

(** ** What the tools of a batch do

    The outcome of one tool call and of a batch of calls, read off the
    registry and the tools' [execute] alone: the result or the escaping
    exception, the world afterwards and the [execute] calls made.  The
    loop is compared with it below. *)

Inductive tool_outcome {W} (bodies : ToolBodies W) (tc : ToolCall) (w : W)
    : Outcome ToolResult -> W -> list Event -> Prop :=
| tool_not_found :
    get_tool bodies (tc_name tc) = None ->
    tool_outcome bodies tc w
      (Returned (mkToolResult (tc_id tc) PyNone
                   (Some ("Tool not found: " +:+ tc_name tc))))
      w []
| tool_returns tool v w' :
    get_tool bodies (tc_name tc) = Some tool ->
    execute tool (tc_arguments tc) w = (inr v, w') ->
    tool_outcome bodies tc w
      (Returned (mkToolResult (tc_id tc) v None))
      w' [EvExecute (tool_name tool) (tc_arguments tc)]
| tool_raises tool e w' :
    get_tool bodies (tc_name tc) = Some tool ->
    execute tool (tc_arguments tc) w = (inl e, w') ->
    is_exception e = true ->
    tool_outcome bodies tc w
      (Returned (mkToolResult (tc_id tc) PyNone (Some (exn_str e))))
      w' [EvExecute (tool_name tool) (tc_arguments tc)]
| tool_escapes tool e w' :
    get_tool bodies (tc_name tc) = Some tool ->
    execute tool (tc_arguments tc) w = (inl e, w') ->
    is_exception e = false ->
    tool_outcome bodies tc w (Raised e)
      w' [EvExecute (tool_name tool) (tc_arguments tc)].

(** [batch bodies tcs w rs x w' evs]: run in order from [w], the calls
    [tcs] give the results [rs]; with [x = None] every call was answered,
    with [x = Some e] the call after the answered ones let [e] escape and
    the calls behind it were not run. *)
Inductive batch {W} (bodies : ToolBodies W)
    : list ToolCall -> W -> list ToolResult -> option Exn -> W ->
      list Event -> Prop :=
| batch_nil w : batch bodies [] w [] None w []
| batch_cons tc tcs w r w1 evs1 rs x w2 evs2 :
    tool_outcome bodies tc w (Returned r) w1 evs1 ->
    batch bodies tcs w1 rs x w2 evs2 ->
    batch bodies (tc :: tcs) w (r :: rs) x w2 (evs1 ++ evs2)
| batch_escape tc tcs w e w1 evs1 :
    tool_outcome bodies tc w (Raised e) w1 evs1 ->
    batch bodies (tc :: tcs) w [] (Some e) w1 evs1.

(** How a batch that gave [rs] and [x] ends for the loop that entered it
    with [tool_results]. *)
Definition batch_end (tool_results rs : list ToolResult) (x : option Exn)
    : Outcome (list ToolResult) :=
  match x with
  | None => Returned (tool_results ++ rs)
  | Some e => Raised e
  end.

(** ** The agent registry and the chat route *)

(** What the process is started with: the tool bodies, the two backend
    clients, the builtin [eval], the text of Pydantic's error for an
    [arguments] value that is no dict, [uuid.uuid4] and the two model names
    of [settings]. *)
Record Runtime (W : Type) : Type := mkRuntime {
  rt_bodies : ToolBodies W;
  rt_anthropic_create : AnthropicRequest -> Ext W AnthropicResponse;
  rt_openai_create : OpenAIRequest -> Ext W OpenAIResponse;
  rt_eval : string -> Ext W Evaluated;
  rt_invalid : Any -> string;
  rt_uuid4 : Ext W string;
  rt_anthropic_model : string;
  rt_openai_model : string
}.
Arguments mkRuntime {W}.
Arguments rt_bodies {W}.
Arguments rt_anthropic_create {W}.
Arguments rt_openai_create {W}.
Arguments rt_eval {W}.
Arguments rt_invalid {W}.
Arguments rt_uuid4 {W}.
Arguments rt_anthropic_model {W}.
Arguments rt_openai_model {W}.

(** [a or b] on strings. *)
Definition str_or (a b : string) : string :=
  if String.eqb a "" then b else a.

Definition _create_provider {W} (rt : Runtime W) (cfg : AgentConfig)
    : AIProvider W :=
  match cfg_provider cfg with
  | ANTHROPIC =>
      AnthropicProvider (rt_anthropic_create rt)
        (str_or (cfg_model cfg) (rt_anthropic_model rt))
  | OPENAI =>
      OpenAIProvider (rt_openai_create rt) (rt_eval rt) (rt_invalid rt)
        (str_or (cfg_model cfg) (rt_openai_model rt))
  end.

(** [Agent.__init__] *)
Definition Agent_init {W} (rt : Runtime W) (cfg : AgentConfig) : Agent W :=
  mkAgent cfg (_create_provider rt cfg)
    (get_tool_definitions (rt_bodies rt) (cfg_tools cfg)).

Definition default_model : string := "claude-3-5-sonnet-20241022".

Definition assistant_config : AgentConfig :=
  mkAgentConfig "assistant" "General Assistant"
    (Some "A helpful AI assistant")
    "You are a helpful AI assistant. You are friendly, concise, and accurate.
You help users with a variety of tasks including answering questions, writing, analysis, and more.
When you don't know something, you say so honestly."
    ANTHROPIC default_model (QArith_base.Qmake 7 10) None
    ["calculator"; "current_time"].

Definition coder_config : AgentConfig :=
  mkAgentConfig "coder" "Code Assistant"
    (Some "Specialized in coding tasks")
    "You are an expert software engineer. You write clean, maintainable code.
You follow best practices and explain your reasoning. You consider edge cases and error handling."
    ANTHROPIC default_model (QArith_base.Qmake 2 10) None
    [].

Definition DEFAULT_AGENTS_items : list (string * AgentConfig) :=
  [("assistant", assistant_config); ("coder", coder_config)].

Definition DEFAULT_AGENTS : gmap string AgentConfig :=
  list_to_map DEFAULT_AGENTS_items.

Definition get_agent {W} (rt : Runtime W) (agent_id : string)
    : option (Agent W) :=
  Agent_init rt <$> DEFAULT_AGENTS !! agent_id.

(** [src/api/chat.py] *)

Record ChatRequest : Type := mkChatRequest {
  req_message : string;
  req_agent_id : string;
  req_conversation_id : option string;
  req_context : option (gmap string Any);
  req_stream : bool
}.

Record ChatResponse : Type := mkChatResponse {
  resp_conversation_id : string;
  resp_message : Message;
  resp_tool_results : option (list ToolResult)
}.

Record ApiResponse : Type := mkApiResponse {
  success : bool;
  data : option ChatResponse;
  error : option (string * string);
  meta : option (gmap string Any)
}.

(** The route handler [chat].  [max_iterations] is left at its default. *)
Definition chat_route {W} (rt : Runtime W) (request : ChatRequest)
    : M W ApiResponse :=
  match get_agent rt (req_agent_id request) with
  | None =>
      raise (HTTPException 404
               ("Agent not found: " +:+ req_agent_id request))
  | Some agent =>
      let* messages :=
        new_list [mkMessage USER (req_message request) None None None None] in
      try_except
        (let* r := chat (rt_bodies rt) agent messages 10 in
         let '(response_message, tool_results) := r in
         let* conversation_id :=
           (if truthy_opt_str (req_conversation_id request)
            then ret (default "" (req_conversation_id request))
            else call (rt_uuid4 rt)) in
         ret (mkApiResponse true
                (Some (mkChatResponse conversation_id response_message
                         (if truthy_list tool_results
                          then Some tool_results else None)))
                None None))
        (fun e => raise (HTTPException 500 (exn_str e)))
  end.

(** [list_agents]: one summary per entry of [DEFAULT_AGENTS], in insertion
    order. *)
Record AgentSummary : Type := mkAgentSummary {
  sum_id : string;
  sum_name : string;
  sum_description : option string;
  sum_tools : list string
}.

Definition list_agents : list AgentSummary :=
  (fun kc => mkAgentSummary (cfg_id kc.2) (cfg_name kc.2)
               (cfg_description kc.2) (cfg_tools kc.2))
  <$> DEFAULT_AGENTS_items.

(** ** [src/api/agents.py] *)

Record AgentInfo : Type := mkAgentInfo {
  info_id : string;
  info_name : string;
  info_description : option string;
  info_tools : list string;
  info_is_active : bool
}.

Definition agent_not_found (agent_id : string) : Exn :=
  HTTPException 404 ("Agent not found: " +:+ agent_id).

(** The route [get_agent_info]; the value is the [data] of the response. *)
Definition get_agent_info (agent_id : string) : Exn + AgentInfo :=
  match DEFAULT_AGENTS !! agent_id with
  | None => inl (agent_not_found agent_id)
  | Some config =>
      inr (mkAgentInfo (cfg_id config) (cfg_name config)
             (cfg_description config) (cfg_tools config) true)
  end.

(** The route [get_agent_tools]; the value is the pair of [agent_id] and
    [tools] of the response's [data]. *)
Definition get_agent_tools {W} (rt : Runtime W) (agent_id : string)
    : Exn + (string * list ToolDef) :=
  match get_agent rt agent_id with
  | None => inl (agent_not_found agent_id)
  | Some agent => inr (agent_id, tool_definitions agent)
  end.

(** ** [src/api/health.py]: the readiness probe *)

(** The fields of [Settings] the probe reads. *)
Record Settings : Type := mkSettings {
  anthropic_api_key : option string;
  openai_api_key : option string;
  database_url : option string
}.

Definition has_anthropic (settings : Settings) : bool :=
  truthy_opt_str (anthropic_api_key settings).

Definition has_openai (settings : Settings) : bool :=
  truthy_opt_str (openai_api_key settings).

Record Readiness : Type := mkReadiness {
  ready_status : string;
  ready_checks : gmap string (gmap string string)
}.

Definition readiness (settings : Settings) : Readiness :=
  let checks : gmap string (gmap string string) := ∅ in
  let is_ready := true in
  let checks :=
    if has_anthropic settings || has_openai settings
    then <["ai_provider" := {[ "status" := "ok" ]}]> checks
    else <["ai_provider" :=
             <["message" := "No AI provider configured"]>
               {[ "status" := "warning" ]}]> checks in
  let checks :=
    if truthy_opt_str (database_url settings)
    then <["database" := {[ "status" := "ok" ]}]> checks
    else checks in
  mkReadiness (if is_ready then "ok" else "degraded") checks.

(** The tool message that answers a result, read off the result alone. *)
Definition result_message (result : ToolResult) : Message :=
  mkMessage TOOL (tool_message_content result) None
    (Some (tr_tool_call_id result)) None None.

(** The tool-use blocks of a response, as tool calls. *)
Definition block_tool_call (block : ContentBlock) : option ToolCall :=
  match block with
  | ToolUseBlock id name input => Some (mkToolCall id name input)
  | _ => None
  end.

Definition block_text (block : ContentBlock) : option string :=
  match block with
  | TextBlock text => Some text
  | _ => None
  end.

(** ** Reading the log *)

Definition provider_calls (evs : list Event) : nat :=
  length (filter is_complete evs).

Definition tool_executions (evs : list Event) : nat :=
  length (filter is_execute evs).


(** ** A scripted backend, for the concrete runs *)

Module Mock.

(** The world is the list of requests the Anthropic backend has received. *)
Abbreviation World := (list AnthropicRequest).

Definition final_answer : AnthropicResponse :=
  mkAnthropicResponse [TextBlock "4"] 20 1.

(** The backend answers its n-th request with the n-th entry of the script. *)
Definition scripted (script : list (Exn + AnthropicResponse))
    : AnthropicRequest -> Ext World AnthropicResponse :=
  fun req w => (nth (length w) script (inr final_answer), w ++ [req]).

Definition expression (e : string) : gmap string Any :=
  {[ "expression" := PyStr e ]}.


(** Tool bodies that behave as the source's on the inputs used below:
    [2 + 2] is [4.0], [2 - 2] is [0.0], [2 +] is a syntax error, the
    expression [escaping] raises a [BaseException] with an empty text;
    the JSON text [0] parses to the integer [0]. *)
Definition bodies : ToolBodies World :=
  mkToolBodies
    (fun args w =>
       match args !! "expression" with
       | Some (PyStr "2 + 2") => (inr (PyObj true "4.0"), w)
       | Some (PyStr "2 - 2") => (inr (PyObj false "0.0"), w)
       | Some (PyStr "(_ for _ in ()).throw([c for c in ().__class__.__base__.__subclasses__() if c.__name__ == 'BaseException'][0])") =>
           (inl (PyBaseExn "BaseException" ""), w)
       | Some _ =>
           (inl (PyExn "ValueError"
                   "Invalid expression: invalid syntax (<string>, line 1)"), w)
       | None => (inl (PyExn "KeyError" "'expression'"), w)
       end)
    (fun args w => (inr (PyStr "2024-01-01T00:00:00Z"), w))
    (fun args w =>
       match args !! "json_string" with
       | Some (PyStr "0") => (inr (PyInt 0), w)
       | Some _ =>
           (inl (PyExn "JSONDecodeError"
                   "Expecting value: line 1 column 1 (char 0)"), w)
       | None => (inl (PyExn "KeyError" "'json_string'"), w)
       end).

(** What [eval] does on three payloads. *)
Definition eval (payload : string) : Ext World Evaluated :=
  fun w =>
    if String.eqb payload "{'expression': '2 + 2'}"
    then (inr (EvalDict (expression "2 + 2")), w)
    else if String.eqb payload "[1, 2]"
    then (inr (EvalOther (PyObj true "[1, 2]")), w)
    else (inl (PyExn "SyntaxError" "'{' was never closed (<string>, line 1)"), w).

Definition openai_reply (payload : string) : OpenAIResponse :=
  mkOpenAIResponse
    [(None, Some [mkOpenAIToolCall "call_1" "calculator" payload])]
    (Some (30, 12)).

Definition runtime (script : list (Exn + AnthropicResponse))
    (payload : string) : Runtime World :=
  mkRuntime bodies (scripted script)
    (fun req w => (inr (openai_reply payload), w))
    eval
    (fun v => "1 validation error for ToolCall")
    (fun w => (inr "3f2b8c1e-5d4a-4e6f-9a7b-0c1d2e3f4a5b", w))
    "claude-3-5-sonnet-20241022" "gpt-4-turbo-preview".

Definition use (id name : string) (args : gmap string Any) : ContentBlock :=
  ToolUseBlock id name args.

Definition turn (blocks : list ContentBlock) : Exn + AnthropicResponse :=
  inr (mkAnthropicResponse blocks 25 40).

Definition connection_error : Exn :=
  PyExn "APIConnectionError" "Connection error.".


(** Three tool calls in one turn, then the final answer. *)
Definition script_three : list (Exn + AnthropicResponse) :=
  [turn [use "toolu_A" "calculator" (expression "2 + 2");
         use "toolu_B" "current_time" ∅;
         use "toolu_C" "calculator" (expression "2 - 2")]].



(** A model that asks for a tool on every turn. *)
Definition script_greedy : list (Exn + AnthropicResponse) :=
  replicate 12 (turn [use "toolu_n" "current_time" ∅]).


Definition user_message : Message :=
  mkMessage USER "what is 2+2" None None None None.

(** The caller's list object sits at address 1. *)
Definition start : State World :=
  mkState {[ 1%positive := [user_message] ]} [] [].

Definition empty_start : State World := mkState ∅ [] [].

Definition assistant (script : list (Exn + AnthropicResponse)) : Agent World :=
  Agent_init (runtime script "") assistant_config.


Definition request (agent_id : string) : ChatRequest :=
  mkChatRequest "what is 2+2" agent_id None None false.

End Mock.

(** * Properties *)

Ltac run_M :=
  unfold bind, ret, raise, out_of_fuel, try_except, call, record, new_list,
    read_list, append; simpl.

Lemma provider_calls_app (evs1 evs2 : list Event) :
  provider_calls (evs1 ++ evs2) = (provider_calls evs1 + provider_calls evs2)%nat.
Proof. unfold provider_calls. by rewrite filter_app, length_app. Qed.

Lemma tool_executions_app (evs1 evs2 : list Event) :
  tool_executions (evs1 ++ evs2) =
  (tool_executions evs1 + tool_executions evs2)%nat.
Proof. unfold tool_executions. by rewrite filter_app, length_app. Qed.

Section Loop.
Context {W : Type} (bodies : ToolBodies W).
Implicit Types (self : Agent W) (s : State W) (tc : ToolCall).

(** [_execute_tool] without the monad: the four ways it can end. *)
Lemma _execute_tool_eq self tc s :
  _execute_tool bodies self tc s =
  match get_tool bodies (tc_name tc) with
  | None =>
      (Returned (mkToolResult (tc_id tc) PyNone
                   (Some ("Tool not found: " +:+ tc_name tc))), s)
  | Some tool =>
      let s1 := mkState (heap s)
                  (execute tool (tc_arguments tc) (world s)).2
                  (log s ++ [EvExecute (tool_name tool) (tc_arguments tc)]) in
      match (execute tool (tc_arguments tc) (world s)).1 with
      | inr v => (Returned (mkToolResult (tc_id tc) v None), s1)
      | inl e =>
          if is_exception e
          then (Returned (mkToolResult (tc_id tc) PyNone (Some (exn_str e))), s1)
          else (Raised e, s1)
      end
  end.
Proof.
  unfold _execute_tool. run_M.
  destruct (get_tool bodies (tc_name tc)) as [tool|]; [|done].
  simpl. destruct (execute tool (tc_arguments tc) (world s)) as [[e|v] w];
    [|done].
  simpl. by destruct (is_exception e).
Qed.

(** Every call has an outcome, and [_execute_tool] ends with it. *)
Lemma tool_outcome_total tc (w : W) :
  ∃ out w' evs, tool_outcome bodies tc w out w' evs.
Proof.
  destruct (get_tool bodies (tc_name tc)) as [tool|] eqn:Hg.
  - destruct (execute tool (tc_arguments tc) w) as [[e|v] w'] eqn:He.
    + destruct (is_exception e) eqn:Hx; eexists _, _, _.
      * by eapply tool_raises.
      * by eapply tool_escapes.
    + eexists _, _, _. by eapply tool_returns.
  - eexists _, _, _. by apply tool_not_found.
Qed.

Lemma _execute_tool_outcome self tc s (out : Outcome ToolResult) (w' : W)
    (evs : list Event) :
  tool_outcome bodies tc (world s) out w' evs →
  _execute_tool bodies self tc s = (out, mkState (heap s) w' (log s ++ evs)).
Proof.
  intros H. rewrite _execute_tool_eq.
  inversion H as [Hg|tool v w1 Hg He|tool e w1 Hg He Hx|tool e w1 Hg He Hx];
    subst; rewrite Hg.
  - rewrite app_nil_r. by destruct s.
  - by rewrite He.
  - rewrite He. simpl. by rewrite Hx.
  - rewrite He. simpl. by rewrite Hx.
Qed.

(** What an outcome can be. *)
Lemma tool_outcome_facts tc (w : W) (out : Outcome ToolResult) (w' : W)
    (evs : list Event) :
  tool_outcome bodies tc w out w' evs →
  provider_calls evs = 0%nat ∧
  (tool_executions evs ≤ 1)%nat ∧
  out ≠ OutOfFuel ∧
  (∀ r, out = Returned r →
        tr_tool_call_id r = tc_id tc ∧
        (tr_error r = None ∨ tr_result r = PyNone)) ∧
  (∀ e, out = Raised e →
        is_exception e = false ∧
        ∃ tool, get_tool bodies (tc_name tc) = Some tool ∧
                evs = [EvExecute (tool_name tool) (tc_arguments tc)] ∧
                execute tool (tc_arguments tc) w = (inl e, w')).
Proof.
  intros H.
  inversion H as [Hg|tool v w1 Hg He|tool e w1 Hg He Hx|tool e w1 Hg He Hx];
    subst.
  - split_and!; try done.
    + unfold tool_executions; simpl; lia.
    + intros r [= <-]. simpl. auto.
  - split_and!; try done.
    + intros r [= <-]. simpl. auto.
  - split_and!; try done.
    + intros r [= <-]. simpl. auto.
  - split_and!; try done.
    intros e' [= <-]. split; [done|]. by exists tool.
Qed.

(** The [for] loop, one call at a time. *)
Lemma dispatch_nil self (cur : loc) (trs : list ToolResult) s :
  dispatch bodies self cur [] trs s = (Returned trs, s).
Proof. reflexivity. Qed.

Lemma dispatch_cons self (cur : loc) tc (rest : list ToolCall)
    (trs : list ToolResult) s :
  dispatch bodies self cur (tc :: rest) trs s =
  match _execute_tool bodies self tc s with
  | (Returned r, s1) =>
      dispatch bodies self cur rest (trs ++ [r])
        (mkState (<[cur := heap s1 !!! cur ++ [tool_message tc r]]> (heap s1))
           (world s1) (log s1))
  | (Raised e, s1) => (Raised e, s1)
  | (OutOfFuel, s1) => (OutOfFuel, s1)
  end.
Proof.
  simpl. unfold bind at 1.
  by destruct (_execute_tool bodies self tc s) as [[r|e|] s1].
Qed.

(** Every batch has an outcome. *)
Lemma batch_total (tcs : list ToolCall) :
  ∀ w : W, ∃ rs x w' evs, batch bodies tcs w rs x w' evs.
Proof.
  induction tcs as [|tc tcs IH]; intros w.
  - eexists _, _, _, _. apply batch_nil.
  - destruct (tool_outcome_total tc w) as (out & w1 & evs1 & Ho).
    destruct out as [r|e|].
    + destruct (IH w1) as (rs & x & w2 & evs2 & Hb).
      eexists _, _, _, _. by eapply batch_cons.
    + eexists _, _, _, _. by eapply batch_escape.
    + by destruct (tool_outcome_facts _ _ _ _ _ Ho) as (_ & _ & ? & _).
Qed.

(** What the outcome of a batch can be. *)
Lemma batch_facts (tcs : list ToolCall) (w : W) (rs : list ToolResult)
    (x : option Exn) (w' : W) (evs : list Event) :
  batch bodies tcs w rs x w' evs →
  provider_calls evs = 0%nat ∧
  (tool_executions evs ≤ length tcs)%nat ∧
  tr_tool_call_id <$> rs = tc_id <$> take (length rs) tcs ∧
  Forall (fun r => tr_error r = None ∨ tr_result r = PyNone) rs ∧
  (x = None → length rs = length tcs) ∧
  (∀ e, x = Some e →
        is_exception e = false ∧
        (length rs < length tcs)%nat ∧
        ∃ tool args w0 w1,
          TOOLS bodies !! tool_name tool = Some tool ∧
          last evs = Some (EvExecute (tool_name tool) args) ∧
          execute tool args w0 = (inl e, w1)).
Proof.
  induction 1 as [w|tc tcs w r w1 evs1 rs x w2 evs2 Ho Hb IH
                 |tc tcs w e w1 evs1 Ho].
  - by split_and!.
  - destruct (tool_outcome_facts _ _ _ _ _ Ho) as (Hp & Hx & _ & Hr & _).
    destruct (Hr r eq_refl) as [Hid Hexcl].
    destruct IH as (Hp' & Hx' & Hids & Hall & Hlen & Hesc).
    split_and!.
    + rewrite provider_calls_app. lia.
    + rewrite tool_executions_app. simpl. lia.
    + simpl. rewrite Hid. f_equal. exact Hids.
    + by constructor.
    + intros Hn. simpl. by rewrite Hlen.
    + intros e He. destruct (Hesc e He)
        as (Hne & Hlt & tool & args & w0 & w3 & Hreg & Hlast & Hraise).
      split_and!; [done|simpl; lia|].
      exists tool, args, w0, w3. split_and!; try done.
      by rewrite last_app, Hlast.
  - destruct (tool_outcome_facts _ _ _ _ _ Ho) as (Hp & Hx & _ & _ & He).
    destruct (He e eq_refl) as (Hne & tool & Hg & -> & Hraise).
    split_and!; try done.
    + simpl in *. lia.
    + intros e' [= <-]. split_and!; [done|simpl; lia|].
      exists tool, (tc_arguments tc), w, w1. split_and!; try done.
      unfold get_tool in Hg.
      assert (Hn : tool_name tool = tc_name tc); [|by rewrite Hn].
      apply elem_of_list_to_map_2 in Hg. unfold TOOLS_items in Hg.
      repeat (apply elem_of_cons in Hg as [[= Hk ->]|Hg]; [by rewrite Hk|]).
      by apply elem_of_nil in Hg.
Qed.

(** The loop over a batch ends as the batch does: it returns the results
    behind the ones gathered before, or lets the escaping exception
    through; it appends the tool messages of the results to the working
    copy, in order, and writes to no other list object. *)
Lemma dispatch_of_batch self (cur : loc) (tcs : list ToolCall) (w : W)
    (rs : list ToolResult) (x : option Exn) (w' : W) (evs : list Event) :
  batch bodies tcs w rs x w' evs →
  ∀ (trs : list ToolResult) s,
  world s = w →
  ∃ s',
    dispatch bodies self cur tcs trs s = (batch_end trs rs x, s') ∧
    world s' = w' ∧
    log s' = log s ++ evs ∧
    heap s' !!! cur = heap s !!! cur ++ (result_message <$> rs) ∧
    (∀ l : loc, l ≠ cur → heap s' !! l = heap s !! l).
Proof.
  induction 1 as [w|tc tcs w r w1 evs1 rs x w2 evs2 Ho Hb IH
                 |tc tcs w e w1 evs1 Ho]; intros trs s Hw; subst w.
  - exists s. rewrite dispatch_nil. simpl. rewrite !app_nil_r.
    by split_and!.
  - rewrite dispatch_cons, (_execute_tool_outcome self tc s _ _ _ Ho).
    cbn [heap world log].
    match goal with |- context [dispatch _ _ _ _ ?t ?s1] =>
      destruct (IH t s1 eq_refl) as (s' & Hd & Hw' & Hlog & Hcur & Hfr)
    end.
    destruct (tool_outcome_facts _ _ _ _ _ Ho) as (_ & _ & _ & Hr & _).
    destruct (Hr r eq_refl) as [Hid _].
    exists s'. simpl in *. split_and!.
    + rewrite Hd. destruct x; simpl; [done|]. by rewrite <- app_assoc.
    + done.
    + by rewrite Hlog, app_assoc.
    + rewrite Hcur, lookup_total_insert_eq, <- app_assoc. simpl.
      do 2 f_equal. unfold tool_message, result_message. by rewrite Hid.
    + intros l Hl. rewrite Hfr by done. by rewrite lookup_insert_ne.
  - rewrite dispatch_cons, (_execute_tool_outcome self tc s _ _ _ Ho).
    eexists. split; [reflexivity|]. simpl. rewrite app_nil_r. by split_and!.
Qed.
End Loop.

Section LoopSpec.
Context {W : Type} (bodies : ToolBodies W).
Implicit Types (self : Agent W) (s : State W) (tc : ToolCall).

(** One turn of the [while] loop. *)
Lemma chat_loop_step (fuel : nat) self (max_iterations : Z) (cur : loc)
    (trs : list ToolResult) (iterations : Z) s :
  iterations < max_iterations →
  chat_loop bodies (S fuel) self max_iterations cur trs iterations s =
  let messages := heap s !!! cur in
  let log1 := log s ++ [EvComplete messages (cfg_system_prompt (config self))
                          (chat_tools self) (chat_kwargs self)] in
  match complete (provider self) messages (cfg_system_prompt (config self))
          (chat_tools self) (chat_kwargs self) (world s) with
  | (inl e, w) => (Raised e, mkState (heap s) w log1)
  | (inr response, w) =>
      if truthy_opt_list (tool_calls response) then
        match dispatch bodies self cur (default [] (tool_calls response)) trs
                (mkState (<[cur := messages ++ [response]]> (heap s)) w log1) with
        | (Returned trs', s2) =>
            chat_loop bodies fuel self max_iterations cur trs'
              (iterations + 1) s2
        | (Raised e, s2) => (Raised e, s2)
        | (OutOfFuel, s2) => (OutOfFuel, s2)
        end
      else (Returned (response, trs), mkState (heap s) w log1)
  end.
Proof.
  intros Hlt. simpl. apply Z.ltb_lt in Hlt. rewrite Hlt. run_M.
  destruct (complete _ _ _ _ _ _) as [[e|response] w]; [done|].
  by destruct (truthy_opt_list (tool_calls response)).
Qed.

(** One turn in which the provider asks for tools, given what the batch
    does. *)
Lemma chat_loop_tool_turn (fuel : nat) self (max_iterations : Z) (cur : loc)
    (trs : list ToolResult) (iterations : Z) s (response : Message) (w : W)
    (rs : list ToolResult) (x : option Exn) (w' : W) (evs : list Event) :
  iterations < max_iterations →
  complete (provider self) (heap s !!! cur) (cfg_system_prompt (config self))
    (chat_tools self) (chat_kwargs self) (world s) = (inr response, w) →
  truthy_opt_list (tool_calls response) = true →
  batch bodies (default [] (tool_calls response)) w rs x w' evs →
  ∃ s2,
    world s2 = w' ∧
    log s2 = log s ++ EvComplete (heap s !!! cur)
                        (cfg_system_prompt (config self))
                        (chat_tools self) (chat_kwargs self) :: evs ∧
    heap s2 !!! cur = heap s !!! cur ++ response :: (result_message <$> rs) ∧
    (∀ l : loc, l ≠ cur → heap s2 !! l = heap s !! l) ∧
    chat_loop bodies (S fuel) self max_iterations cur trs iterations s =
      match x with
      | None =>
          chat_loop bodies fuel self max_iterations cur (trs ++ rs)
            (iterations + 1) s2
      | Some e => (Raised e, s2)
      end.
Proof.
  intros Hlt Hresp Htruthy Hb.
  rewrite chat_loop_step by done. cbv zeta. rewrite Hresp, Htruthy.
  match goal with |- context [dispatch _ _ _ ?tcs _ ?s1] =>
    destruct (dispatch_of_batch bodies self cur tcs _ _ _ _ _ Hb trs s1 eq_refl)
      as (s2 & Hd & Hw & Hlog & Hcur & Hfr)
  end.
  exists s2. rewrite Hd. simpl in *. split_and!.
  - done.
  - by rewrite Hlog, <- app_assoc.
  - by rewrite Hcur, lookup_total_insert_eq, <- app_assoc.
  - intros l Hl. rewrite Hfr by done. by rewrite lookup_insert_ne.
  - by destruct x.
Qed.

(** The loop with enough fuel: it ends by returning or raising, it only
    adds to the log, it calls the provider at most as many times as
    there are iterations left, it writes to no list object but its
    working copy, what it returns extends the results it was entered
    with, and what it raises is what its last provider call raised or a
    [BaseException] that the tool it ran last let escape. *)
Lemma chat_loop_spec (fuel : nat) :
  ∀ self (max_iterations : Z) (cur : loc) (trs : list ToolResult)
    (iterations : Z) s,
  (Z.to_nat (max_iterations - iterations) ≤ fuel)%nat →
  ∃ out s' evs,
    chat_loop bodies fuel self max_iterations cur trs iterations s = (out, s') ∧
    out ≠ OutOfFuel ∧
    log s' = log s ++ evs ∧
    (provider_calls evs ≤ Z.to_nat (max_iterations - iterations))%nat ∧
    (∀ l : loc, l ≠ cur → heap s' !! l = heap s !! l) ∧
    (∀ m trs', out = Returned (m, trs') → ∃ rs, trs' = trs ++ rs) ∧
    (∀ e, out = Raised e →
       (∃ msgs w,
          last evs = Some (EvComplete msgs (cfg_system_prompt (config self))
                             (chat_tools self) (chat_kwargs self)) ∧
          (complete (provider self) msgs (cfg_system_prompt (config self))
             (chat_tools self) (chat_kwargs self) w).1 = inl e) ∨
       (is_exception e = false ∧
        ∃ tool args w0 w1,
          TOOLS bodies !! tool_name tool = Some tool ∧
          last evs = Some (EvExecute (tool_name tool) args) ∧
          execute tool args w0 = (inl e, w1))).
Proof.
  induction fuel as [|fuel IH]; intros self max_iterations cur trs iterations s Hfuel.
  - assert (Hge : (iterations <? max_iterations) = false) by (apply Z.ltb_ge; lia).
    simpl. rewrite Hge. exists (Returned (limit_message, trs)), s, [].
    rewrite app_nil_r. split_and!; try done.
    + unfold provider_calls; simpl; lia.
    + intros m trs' [= _ <-]. exists []. by rewrite app_nil_r.
  - destruct (decide (iterations < max_iterations)) as [Hlt|Hge].
    + destruct (complete (provider self) (heap s !!! cur)
                  (cfg_system_prompt (config self)) (chat_tools self)
                  (chat_kwargs self) (world s)) as [[e|response] w] eqn:Hc.
      * rewrite chat_loop_step by done. cbv zeta. rewrite Hc.
        eexists _, _, [_]. split_and!; try done.
        -- unfold provider_calls; simpl; lia.
        -- intros e' [= <-]. left. eexists _, (world s). split; [done|].
           by rewrite Hc.
      * destruct (truthy_opt_list (tool_calls response)) eqn:Htruthy.
        -- destruct (batch_total bodies (default [] (tool_calls response)) w)
             as (rs & x & w' & bevs & Hb).
           destruct (chat_loop_tool_turn fuel self max_iterations cur trs
                       iterations s response w rs x w' bevs Hlt Hc Htruthy Hb)
             as (s2 & Hw & Hlog & Hcur & Hfr & ->).
           destruct (batch_facts bodies _ _ _ _ _ _ Hb)
             as (Hpc & _ & _ & _ & _ & Hesc).
           destruct x as [e|].
           ++ destruct (Hesc e eq_refl)
                as (Hne & _ & tool & args & w0 & w1 & Hreg & Hlast & Hraise).
              eexists _, _, (_ :: bevs). split_and!; try done.
              ** change (?a :: bevs) with ([a] ++ bevs).
                 rewrite provider_calls_app, Hpc.
                 unfold provider_calls; simpl; lia.
              ** intros e' [= <-]. right. split; [done|].
                 exists tool, args, w0, w1. split_and!; try done.
                 change (?a :: bevs) with ([a] ++ bevs).
                 by rewrite last_app, Hlast.
           ++ destruct (IH self max_iterations cur (trs ++ rs)
                          (iterations + 1) s2)
                as (out & s' & evs' & Hl & Hout & Hlog' & Hcount & Hfr'
                    & Hacc & Hexn); [lia|].
              exists out, s', ([EvComplete (heap s !!! cur)
                                  (cfg_system_prompt (config self))
                                  (chat_tools self) (chat_kwargs self)]
                               ++ bevs ++ evs').
              split_and!; try done.
              ** rewrite Hlog', Hlog. simpl. by rewrite <- !app_assoc.
              ** rewrite !provider_calls_app, Hpc.
                 unfold provider_calls at 1; simpl. lia.
              ** intros l Hl'. by rewrite Hfr', Hfr.
              ** intros m trs' Hm. destruct (Hacc m trs' Hm) as [rs' ->].
                 exists (rs ++ rs'). by rewrite app_assoc.
              ** intros e He.
                 destruct (Hexn e He)
                   as [(msgs & w0 & Hlast & Hraise)
                      |(Hne & tool & args & w0 & w1 & Hreg & Hlast & Hraise)].
                 --- left. exists msgs, w0. split; [|done].
                     by rewrite !last_app, Hlast.
                 --- right. split; [done|].
                     exists tool, args, w0, w1. split_and!; try done.
                     by rewrite !last_app, Hlast.
        -- rewrite chat_loop_step by done. cbv zeta. rewrite Hc, Htruthy.
           eexists _, _, [_]. split_and!; try done.
           ++ unfold provider_calls; simpl; lia.
           ++ intros m trs' [= _ <-]. exists []. by rewrite app_nil_r.
    + assert (Hf : (iterations <? max_iterations) = false) by (apply Z.ltb_ge; lia).
      simpl. rewrite Hf. exists (Returned (limit_message, trs)), s, [].
      rewrite app_nil_r. split_and!; try done.
      * unfold provider_calls; simpl; lia.
      * intros m trs' [= _ <-]. exists []. by rewrite app_nil_r.
Qed.

(** [Agent.chat] enters the loop on a fresh copy of the caller's list. *)
Lemma chat_eq self (messages : loc) (max_iterations : Z) s :
  chat bodies self messages max_iterations s =
  let cur := fresh (dom (heap s)) in
  chat_loop bodies (Z.to_nat max_iterations) self max_iterations cur [] 0
    (mkState (<[cur := heap s !!! messages]> (heap s)) (world s) (log s)).
Proof. reflexivity. Qed.

(** [Agent.chat] as a whole. *)
Lemma chat_spec self (messages : loc) (max_iterations : Z) s :
  ∃ out s' evs,
    chat bodies self messages max_iterations s = (out, s') ∧
    out ≠ OutOfFuel ∧
    log s' = log s ++ evs ∧
    (provider_calls evs ≤ Z.to_nat max_iterations)%nat ∧
    (∀ l : loc, l ≠ fresh (dom (heap s)) → heap s' !! l = heap s !! l) ∧
    (∀ e, out = Raised e →
       (∃ msgs w,
          last evs = Some (EvComplete msgs (cfg_system_prompt (config self))
                             (chat_tools self) (chat_kwargs self)) ∧
          (complete (provider self) msgs (cfg_system_prompt (config self))
             (chat_tools self) (chat_kwargs self) w).1 = inl e) ∨
       (is_exception e = false ∧
        ∃ tool args w0 w1,
          TOOLS bodies !! tool_name tool = Some tool ∧
          last evs = Some (EvExecute (tool_name tool) args) ∧
          execute tool args w0 = (inl e, w1))).
Proof.
  rewrite chat_eq. cbv zeta.
  match goal with |- context [chat_loop _ ?f _ ?m ?c ?t ?i ?s1] =>
    destruct (chat_loop_spec f self m c t i s1)
      as (out & s' & evs & Hl & Hout & Hlog & Hcount & Hfr & _ & Hexn); [lia|]
  end.
  exists out, s', evs. rewrite Z.sub_0_r in Hcount. split_and!; try done.
  intros l Hl'. rewrite Hfr by done. simpl. by rewrite lookup_insert_ne.
Qed.

End LoopSpec.

(** The Anthropic request carries no tool message, whatever the
    conversation holds. *)
Lemma anthropic_messages_no_tool (messages : list Message) :
  Forall (fun rc => rc.1 ≠ "tool") (anthropic_messages messages).
Proof.
  unfold anthropic_messages. apply Forall_fmap, Forall_forall.
  intros msg [[Hr|Hr] _]%list_elem_of_filter; simpl; by rewrite Hr.
Qed.

(** The OpenAI request carries every message, tool messages included. *)
Lemma openai_request_keeps_all (model : string) (messages : list Message)
    (system_prompt : string) (tools : option (list ToolDef)) (kwargs : Kwargs) :
  oreq_messages (openai_request model messages system_prompt tools kwargs) =
  ("system", system_prompt) ::
  ((fun msg => (MessageRole_value (role msg), content msg)) <$> messages).
Proof. reflexivity. Qed.

(** A truthy result is rendered with [str]. *)
Lemma tool_message_content_truthy (result : ToolResult) :
  py_bool (tr_result result) = true →
  tool_message_content result = py_str (tr_result result).
Proof. unfold tool_message_content. by intros ->. Qed.

(** An error-carrying result is rendered by its error. *)
Lemma tool_message_content_error (id err : string) :
  tool_message_content (mkToolResult id PyNone (Some err)) = err.
Proof.
  unfold tool_message_content; simpl.
  destruct (String.eqb err "") eqn:E; [|done].
  by apply String.eqb_eq in E.
Qed.

Section Claims.
Context {W : Type} (bodies : ToolBodies W).
Implicit Types (self : Agent W) (s : State W) (tc : ToolCall).



(** C10: [Agent.chat] leaves the caller's list object as it found it. *)
Theorem chat_preserves_callers_list self (messages : loc) (max_iterations : Z)
    s (l : list Message) :
  heap s !! messages = Some l →
  heap (chat bodies self messages max_iterations s).2 !! messages = Some l.
Proof.
  intros Hl.
  destruct (chat_spec bodies self messages max_iterations s)
    as (out & s' & evs & Hc & _ & _ & _ & Hfr & _).
  rewrite Hc. simpl. rewrite Hfr; [done|].
  intros ->. apply (is_fresh (dom (heap s))), elem_of_dom. eauto.
Qed.
End Claims.

(** C8, amended: building a [Message] fails, with a [ValidationError],
    exactly when [role] or [content] is missing; with both given it yields
    the message with the fields as passed, whether or not the invariant of
    the specification holds of it. *)
Theorem Message_new_checks_required_fields_only
    (r : option MessageRole) (c : option string) (n id : option string)
    (tcs : option (list ToolCall)) (md : option (gmap string Any)) :
  match r, c with
  | Some r', Some c' =>
      Message_new r c n id tcs md = inr (mkMessage r' c' n id tcs md)
  | _, _ =>
      ∃ e, Message_new r c n id tcs md = inl e ∧ exn_class e = "ValidationError"
  end.
Proof. destruct r, c; simpl; eauto. Qed.

(** C8 fails as stated: a tool message without identifier, an assistant
    message with an empty tool-call list and one with a repeated
    identifier are all built, and all break the invariant. *)
Lemma Message_new_accepts_invalid :
  let dup := mkToolCall "toolu_1" "calculator" ∅ in
  ∃ m1 m2 m3,
    Message_new (Some TOOL) (Some "4.0") None None None None = inr m1 ∧
    spec_message_invariant m1 = false ∧
    Message_new (Some ASSISTANT) (Some "") None None (Some []) None = inr m2 ∧
    spec_message_invariant m2 = false ∧
    Message_new (Some ASSISTANT) (Some "") None None (Some [dup; dup]) None = inr m3 ∧
    spec_message_invariant m3 = false.
Proof. eexists _, _, _. split_and!; reflexivity. Qed.




(** C10 on the three-tool run: the caller's list still holds the one user
    message. *)
Lemma chat_preserves_callers_list_witness :
  heap Mock.start !! 1%positive = Some [Mock.user_message] ∧
  heap (chat Mock.bodies (Mock.assistant Mock.script_three) 1%positive 10
          Mock.start).2 !! 1%positive = Some [Mock.user_message].
Proof.
  split; [reflexivity|].
  apply chat_preserves_callers_list. reflexivity.
Defined.

Section LoopClaims.
Context {W : Type} (bodies : ToolBodies W).
Implicit Types (self : Agent W) (s : State W) (tc : ToolCall).


End LoopClaims.


(** A payload that makes the comprehension fail: the failure is the
    exception [eval] raised on one of the payloads, or the validation
    error of [ToolCall]. *)
Lemma openai_tool_calls_undecodable {W : Type} (eval : string -> Ext W Evaluated)
    (invalid : Any -> string)
    (tcs : list OpenAIToolCall) (tc : OpenAIToolCall) :
  tc ∈ tcs →
  (∀ w0 d w0', eval (otc_function_arguments tc) w0 ≠ (inr (EvalDict d), w0')) →
  ∀ w, ∃ e w',
    openai_tool_calls eval invalid tcs w = (inl e, w') ∧
    ((∃ tc' w0 w0', tc' ∈ tcs ∧
        eval (otc_function_arguments tc') w0 = (inl e, w0')) ∨
     exn_class e = "ValidationError").
Proof.
  intros Hin Hbad. induction tcs as [|tc0 tcs IH]; [by apply elem_of_nil in Hin|].
  intros w. simpl.
  destruct (eval (otc_function_arguments tc0) w) as [[e|[d|v]] w1] eqn:He.
  - exists e, w1. split; [done|]. left. exists tc0, w, w1. split; [left|done].
  - apply elem_of_cons in Hin as [->|Hin]; [by apply Hbad in He|].
    destruct (IH Hin w1) as (e & w' & -> & [(tc' & w0 & w0' & Hin' & He') | Hcls]).
    + exists e, w'. split; [done|]. left. exists tc', w0, w0'. split; [by right|done].
    + eexists _, w'. split; [done|]. by right.
  - eexists _, w1. split; [done|]. by right.
Qed.

(** C6, amended: when a tool call of the first choice has a payload that
    [eval] never turns into a dict, [complete] of the OpenAI adapter
    raises, and what it raises is an exception of [eval] on a payload of
    that response, unchanged, or a [ValidationError]; no message is
    returned. *)
Theorem openai_undecodable_arguments_raise {W : Type}
    (create : OpenAIRequest -> Ext W OpenAIResponse)
    (eval : string -> Ext W Evaluated) (invalid : Any -> string)
    (model : string)
    (messages : list Message) (system_prompt : string)
    (tools : option (list ToolDef)) (kwargs : Kwargs) (w w1 : W)
    (response : OpenAIResponse) (msg_content : option string)
    (tcs : list OpenAIToolCall)
    (rest : list (option string * option (list OpenAIToolCall)))
    (tc : OpenAIToolCall) :
  create (openai_request model messages system_prompt tools kwargs) w =
    (inr response, w1) →
  oresp_choices response = (msg_content, Some tcs) :: rest →
  tc ∈ tcs →
  (∀ w0 d w0', eval (otc_function_arguments tc) w0 ≠ (inr (EvalDict d), w0')) →
  ∃ e w',
    complete (OpenAIProvider create eval invalid model) messages system_prompt
      tools kwargs w = (inl e, w') ∧
    ((∃ tc' w0 w0', tc' ∈ tcs ∧
        eval (otc_function_arguments tc') w0 = (inl e, w0')) ∨
     exn_class e = "ValidationError").
Proof.
  intros Hcreate Hchoices Hin Hbad.
  destruct (openai_tool_calls_undecodable eval invalid tcs tc Hin Hbad w1)
    as (e & w' & Hcalls & Hwhich).
  exists e, w'. split; [|done].
  simpl. rewrite Hcreate, Hchoices. simpl.
  destruct tcs as [|tc0 tcs']; [by apply elem_of_nil in Hin|].
  cbn [truthy_list]. by rewrite Hcalls.
Qed.

(** ** Concrete runs *)

(** The end-to-end scenario of the specification: one calculator call,
    then the final answer. *)
Example end_to_end_scenario :
  (chat Mock.bodies
     (Mock.assistant
        [Mock.turn [Mock.use "toolu_1" "calculator" (Mock.expression "2 + 2")]])
     1%positive 10 Mock.start).1 =
  Returned
    (mkMessage ASSISTANT "4" None None None
       (Some (list_to_map
          [("model", PyStr "claude-3-5-sonnet-20241022");
           ("input_tokens", PyInt 20);
           ("output_tokens", PyInt 1)])),
     [mkToolResult "toolu_1" (PyObj true "4.0") None]).
Proof. by vm_compute. Qed.



(** C3, on the default provider: one assistant turn asks for the tools A,
    B and C.  The conversation handed to the second [complete] call holds
    their three tool messages in that order, but the request the Anthropic
    adapter sends to the backend holds the user and assistant entries
    only: the completion does not see the tool results. *)
Lemma anthropic_request_drops_tool_results :
  let run := chat Mock.bodies (Mock.assistant Mock.script_three) 1%positive 10
               Mock.start in
  (∃ msgs sp tools kw,
     log run.2 !! 4%nat = Some (EvComplete msgs sp tools kw) ∧
     tool_call_id <$> filter (fun m => role m = TOOL) msgs =
       [Some "toolu_A"; Some "toolu_B"; Some "toolu_C"]) ∧
  areq_messages <$> world run.2 =
    [[("user", "what is 2+2")];
     [("user", "what is 2+2"); ("assistant", "")]].
Proof.
  split; [|by vm_compute].
  eexists _, _, _, _. split; by vm_compute.
Qed.


(** C7, at a result that is falsy but not [None]: the calculator returns
    [0.0] for [2 - 2]; the call succeeded and [str] of its value is [0.0],
    yet the tool message appended for it has the empty content.  The same
    happens for the integer [0]. *)
Lemma falsy_result_rendered_as_empty :
  let run := chat Mock.bodies (Mock.assistant Mock.script_three) 1%positive 10
               Mock.start in
  (∃ m r1 r2 r3,
     run.1 = Returned (m, [r1; r2; r3]) ∧
     tr_error r3 = None ∧
     py_str (tr_result r3) = "0.0") ∧
  content <$> filter (fun m => role m = TOOL)
                (heap run.2 !!! fresh (dom (heap Mock.start))) =
    ["4.0"; "2024-01-01T00:00:00Z"; ""] ∧
  tool_message_content (mkToolResult "toolu_1" (PyInt 0) None) = "" ∧
  py_str (PyInt 0) = "0".
Proof.
  split_and!; try (by vm_compute).
  eexists _, _, _, _. split_and!; by vm_compute.
Qed.

(** C6 fails as stated: on a payload that is cut short [eval] raises a
    [SyntaxError] and the adapter lets it through; on a payload that is a
    list the adapter raises the [ValidationError] of [ToolCall].  Neither
    is a [ProviderError]. *)
Lemma undecodable_arguments_not_provider_error :
  let adapter payload :=
    OpenAIProvider (rt_openai_create (Mock.runtime [] payload)) Mock.eval
      (rt_invalid (Mock.runtime [] payload)) "gpt-4-turbo-preview" in
  let run payload :=
    (complete (adapter payload) [Mock.user_message] "sys" None
       (mkKwargs None None) []).1 in
  run "{'expression': " =
    inl (PyExn "SyntaxError" "'{' was never closed (<string>, line 1)") ∧
  (∃ e, run "[1, 2]" = inl e ∧ exn_class e = "ValidationError") ∧
  exn_class (PyExn "SyntaxError" "'{' was never closed (<string>, line 1)")
    ≠ "ProviderError" ∧
  "ValidationError" ≠ "ProviderError".
Proof.
  split_and!; try (by vm_compute).
  eexists. split; by vm_compute.
Qed.

(** ** The theorems at concrete inputs *)




(** The amended C6 on a payload that is cut short. *)
Lemma openai_undecodable_arguments_raise_witness :
  let payload := "{'expression': " in
  let tc := mkOpenAIToolCall "call_1" "calculator" payload in
  tc ∈ [tc] ∧
  (∀ w0 d w0', Mock.eval payload w0 ≠ (inr (EvalDict d), w0')) ∧
  ∃ e w',
    complete (OpenAIProvider (rt_openai_create (Mock.runtime [] payload))
                Mock.eval (rt_invalid (Mock.runtime [] payload))
                "gpt-4-turbo-preview")
      [Mock.user_message] "sys" None (mkKwargs None None) [] = (inl e, w').
Proof.
  assert (Hin : mkOpenAIToolCall "call_1" "calculator" "{'expression': "
                ∈ [mkOpenAIToolCall "call_1" "calculator" "{'expression': "])
    by apply list_elem_of_here.
  assert (Hbad : ∀ (w0 : Mock.World) d w0',
            Mock.eval "{'expression': " w0 ≠ (inr (EvalDict d), w0'))
    by (intros w0 d w0'; vm_compute; discriminate).
  split; [exact Hin|]. split; [exact Hbad|].
  destruct (openai_undecodable_arguments_raise
              (rt_openai_create (Mock.runtime [] "{'expression': "))
              Mock.eval (rt_invalid (Mock.runtime [] "{'expression': "))
              "gpt-4-turbo-preview" [Mock.user_message] "sys" None
              (mkKwargs None None) [] []
              (Mock.openai_reply "{'expression': ") None
              [mkOpenAIToolCall "call_1" "calculator" "{'expression': "] []
              (mkOpenAIToolCall "call_1" "calculator" "{'expression': ")
              eq_refl eq_refl Hin Hbad)
    as (e & w' & Hc & _).
  exists e, w'. exact Hc.
Defined.
(** * Further properties of the code *)

(** ** The tool registry *)

(** Every registry entry is filed under its tool's own name. *)
Lemma TOOLS_items_lookup {W} (b : ToolBodies W) (n : string) (t : Tool W) :
  TOOLS b !! n = Some t ↔ (n, t) ∈ TOOLS_items b.
Proof.
  split.
  - apply elem_of_list_to_map_2.
  - intros Hin. unfold TOOLS_items in Hin.
    repeat (apply elem_of_cons in Hin as [[= -> ->]|Hin]; [reflexivity|]).
    by apply elem_of_nil in Hin.
Qed.

(** X1: [get_tool] finds exactly the three built-in names, and the tool it
    returns for a name carries that name. *)
Theorem get_tool_registered {W} (b : ToolBodies W) (n : string) :
  (is_Some (get_tool b n) ↔ n ∈ ["calculator"; "current_time"; "json_parse"]) ∧
  (∀ t, get_tool b n = Some t → tool_name t = n).
Proof.
  unfold get_tool. split; [split|].
  - intros [t Ht]. apply TOOLS_items_lookup in Ht. unfold TOOLS_items in Ht.
    repeat (apply elem_of_cons in Ht as [[= -> ->]|Ht]; [set_solver|]).
    by apply elem_of_nil in Ht.
  - intros Hin.
    repeat (apply elem_of_cons in Hin as [->|Hin]; [by eexists|]).
    by apply elem_of_nil in Hin.
  - intros t Ht. apply TOOLS_items_lookup in Ht. unfold TOOLS_items in Ht.
    repeat (apply elem_of_cons in Ht as [[= -> ->]|Ht]; [reflexivity|]).
    by apply elem_of_nil in Ht.
Qed.

(** The names of the definitions [get_tool_definitions] returns. *)
Lemma get_tool_definitions_td_names {W} (b : ToolBodies W)
    (names : list string) :
  td_name <$> get_tool_definitions b names =
  filter (fun n => is_Some (TOOLS b !! n)) names.
Proof.
  induction names as [|n names IH]; [done|].
  simpl. destruct (TOOLS b !! n) as [t|] eqn:Ht.
  - rewrite filter_cons_True by (rewrite Ht; by eexists).
    rewrite fmap_cons, IH. f_equal. simpl.
    apply TOOLS_items_lookup in Ht. unfold TOOLS_items in Ht.
    repeat (apply elem_of_cons in Ht as [[= -> ->]|Ht]; [reflexivity|]).
    by apply elem_of_nil in Ht.
  - rewrite filter_cons_False; [done|].
    rewrite Ht. by intros [? ?].
Qed.

(** X2: [get_tool_definitions] keeps the names that are registered, in the
    order and with the repetitions of its input, and skips the others; it
    never returns more definitions than it was given names, and the
    definitions of a concatenation are the concatenation of the
    definitions. *)
Theorem get_tool_definitions_names {W} (b : ToolBodies W) (names : list string) :
  td_name <$> get_tool_definitions b names =
    filter (fun n => is_Some (TOOLS b !! n)) names ∧
  (length (get_tool_definitions b names) ≤ length names)%nat ∧
  (∀ more, get_tool_definitions b (names ++ more) =
           get_tool_definitions b names ++ get_tool_definitions b more).
Proof.
  split_and!.
  - apply get_tool_definitions_td_names.
  - rewrite <- (length_fmap td_name), get_tool_definitions_td_names.
    apply length_filter.
  - intros more. induction names as [|n names IH]; [done|].
    simpl. rewrite IH. by destruct (TOOLS b !! n).
Qed.

(** X3: [list_tools] lists a name with a description exactly when
    [get_tool] finds a tool of that name with that description, and lists
    no name twice. *)
Theorem list_tools_matches_registry {W} (b : ToolBodies W) :
  (∀ n d, (n, d) ∈ list_tools b ↔
          ∃ t, get_tool b n = Some t ∧ tool_description t = d) ∧
  NoDup (list_tools b).*1.
Proof.
  split.
  - intros n d. unfold get_tool. split.
    + intros Hin. unfold list_tools, TOOLS_items in Hin. simpl in Hin.
      repeat (apply elem_of_cons in Hin as [[= -> ->]|Hin];
              [eexists; split; reflexivity|]).
      by apply elem_of_nil in Hin.
    + intros (t & Ht & <-). apply TOOLS_items_lookup in Ht.
      unfold TOOLS_items in Ht.
      repeat (apply elem_of_cons in Ht as [[= -> ->]|Ht];
              [unfold list_tools; simpl; set_solver|]).
      by apply elem_of_nil in Ht.
  - unfold list_tools. simpl. apply (bool_decide_unpack _). by vm_compute.
Qed.

(** ** The provider adapters *)

(** The block loop in closed form, for any text and calls it starts
    with. *)
Lemma anthropic_parse_acc (blocks : list ContentBlock) :
  ∀ (content : string) (tool_calls : list ToolCall),
  anthropic_parse blocks content tool_calls =
  (default content (last (omap block_text blocks)),
   tool_calls ++ omap block_tool_call blocks).
Proof.
  induction blocks as [|[text|id name input|type] blocks IH];
    intros content tool_calls; cbn [anthropic_parse].
  - simpl. by rewrite app_nil_r.
  - rewrite IH. f_equal.
    change (omap block_text (TextBlock text :: blocks))
      with (text :: omap block_text blocks).
    rewrite last_cons. by destruct (last (omap block_text blocks)).
  - rewrite IH. f_equal.
    change (omap block_tool_call (ToolUseBlock id name input :: blocks))
      with (mkToolCall id name input :: omap block_tool_call blocks).
    by rewrite <- app_assoc.
  - by rewrite IH.
Qed.

(** X4: the loop over the content blocks of an Anthropic response, as the
    adapter starts it, collects the tool-use blocks in their order and
    keeps the text of the last text block, or the empty text when there is
    none; and running it over two stretches of blocks one after the other
    is running it over their concatenation. *)
Theorem anthropic_parse_spec (blocks more : list ContentBlock)
    (content : string) (tool_calls : list ToolCall) :
  anthropic_parse blocks "" [] =
    (default "" (last (omap block_text blocks)),
     omap block_tool_call blocks) ∧
  anthropic_parse (blocks ++ more) content tool_calls =
    anthropic_parse more (anthropic_parse blocks content tool_calls).1
      (anthropic_parse blocks content tool_calls).2.
Proof.
  split.
  - by rewrite anthropic_parse_acc.
  - rewrite !anthropic_parse_acc. simpl.
    rewrite !omap_app, last_app, <- app_assoc. f_equal.
    by destruct (last (omap block_text more)).
Qed.

(** X5: the message the Anthropic adapter builds from a response is an
    assistant message without a tool-call identifier; its content is the
    text of the last text block, or empty; its tool-call list is the
    tool-use blocks of the response in order, and is absent, never empty,
    when the response has none. *)
Theorem anthropic_message_wellformed (model : string)
    (response : AnthropicResponse) :
  let m := anthropic_message model response in
  let calls := omap block_tool_call (aresp_content response) in
  role m = ASSISTANT ∧
  tool_call_id m = None ∧
  content m = default "" (last (omap block_text (aresp_content response))) ∧
  tool_calls m = (if truthy_list calls then Some calls else None) ∧
  tool_calls m ≠ Some [].
Proof.
  unfold anthropic_message. rewrite anthropic_parse_acc. simpl.
  destruct (omap block_tool_call (aresp_content response)); by simpl.
Qed.

(** The comprehension of the OpenAI adapter keeps identifiers and names in
    order. *)
Lemma openai_tool_calls_success {W : Type} (eval : string -> Ext W Evaluated)
    (invalid : Any -> string) (tcs : list OpenAIToolCall) :
  ∀ (w w' : W) (l : list ToolCall),
  openai_tool_calls eval invalid tcs w = (inr l, w') →
  tc_id <$> l = otc_id <$> tcs ∧
  tc_name <$> l = otc_function_name <$> tcs.
Proof.
  induction tcs as [|tc tcs IH]; intros w w' l; simpl.
  - by intros [= <- _].
  - destruct (eval (otc_function_arguments tc) w) as [[e|[d|v]] w1]; try done.
    destruct (openai_tool_calls eval invalid tcs w1) as [[e|l'] w2] eqn:Hrest;
      try done.
    intros [= <- _]. destruct (IH w1 w2 l' Hrest) as [Hids Hnames].
    split; simpl; f_equal; assumption.
Qed.

(** X6: a message returned by the OpenAI adapter is an assistant message
    whose content is the first choice's text, or empty when there is none;
    when the first choice asks for tools, the message carries one tool call
    per request, with the identifiers and names in the backend's order;
    otherwise it carries no tool-call list. *)
Theorem openai_message_wellformed {W : Type}
    (create : OpenAIRequest -> Ext W OpenAIResponse)
    (eval : string -> Ext W Evaluated) (invalid : Any -> string)
    (model : string)
    (messages : list Message) (system_prompt : string)
    (tools : option (list ToolDef)) (kwargs : Kwargs) (w w1 w' : W)
    (response : OpenAIResponse) (msg_content : option string)
    (msg_tool_calls : option (list OpenAIToolCall))
    (rest : list (option string * option (list OpenAIToolCall)))
    (m : Message) :
  create (openai_request model messages system_prompt tools kwargs) w =
    (inr response, w1) →
  oresp_choices response = (msg_content, msg_tool_calls) :: rest →
  complete (OpenAIProvider create eval invalid model) messages system_prompt
    tools kwargs w = (inr m, w') →
  role m = ASSISTANT ∧
  content m = default "" msg_content ∧
  tool_calls m ≠ Some [] ∧
  if truthy_opt_list msg_tool_calls
  then ∃ l, tool_calls m = Some l ∧
            tc_id <$> l = otc_id <$> default [] msg_tool_calls ∧
            tc_name <$> l = otc_function_name <$> default [] msg_tool_calls
  else tool_calls m = None.
Proof.
  intros Hcreate Hchoices. simpl. rewrite Hcreate, Hchoices.
  destruct (truthy_opt_list msg_tool_calls) eqn:Htruthy.
  - destruct (openai_tool_calls eval invalid (default [] msg_tool_calls) w1)
      as [[e|l] w2] eqn:Hcalls; [done|].
    intros [= <- _]. simpl.
    destruct (openai_tool_calls_success eval invalid _ _ _ _ Hcalls)
      as [Hids Hnames].
    split_and!; [done| | |by exists l].
    + by destruct msg_content as [[|c cs]|].
    + intros [= ->]. destruct msg_tool_calls as [[|tc tcs]|]; done.
  - intros [= <- _]. simpl. split_and!; try done.
    by destruct msg_content as [[|c cs]|].
Qed.

(** X7: on every [complete] call of [Agent.chat] the Anthropic request
    carries the agent's own [max_tokens], absent or not, so the default of
    4096 is never used; the temperature is always the agent's. *)
Theorem anthropic_request_from_chat {W : Type} (self : Agent W)
    (model : string) (messages : list Message) (system_prompt : string)
    (tools : option (list ToolDef)) :
  let req := anthropic_request model messages system_prompt tools
               (chat_kwargs self) in
  areq_max_tokens req = cfg_max_tokens (config self) ∧
  areq_temperature req = Some (cfg_temperature (config self)) ∧
  areq_model req = model ∧
  areq_system req = system_prompt.
Proof. simpl. by split_and!. Qed.

(** X8: the request of an agent built by [Agent.__init__] offers tools to
    the backend exactly when one of the agent's tool names is registered;
    the tools it offers are the registered names of the agent's list, in
    order.  The same holds for both adapters. *)
Theorem agent_request_tools {W : Type} (rt : Runtime W) (cfg : AgentConfig)
    (model : string) (messages : list Message) (system_prompt : string)
    (kwargs : Kwargs) :
  let self := Agent_init rt cfg in
  let registered :=
    filter (fun n => is_Some (TOOLS (rt_bodies rt) !! n)) (cfg_tools cfg) in
  let a := areq_tools (anthropic_request model messages system_prompt
                         (chat_tools self) kwargs) in
  let o := oreq_tools (openai_request model messages system_prompt
                         (chat_tools self) kwargs) in
  a = o ∧
  (registered = [] → a = None) ∧
  (registered ≠ [] → ∃ defs, a = Some defs ∧ td_name <$> defs = registered).
Proof.
  simpl. unfold chat_tools. simpl.
  pose proof (get_tool_definitions_td_names (rt_bodies rt) (cfg_tools cfg)) as Hn.
  destruct (cfg_tools cfg) as [|n names] eqn:Hnames.
  - simpl. split_and!; try done.
  - cbn [truthy_list truthy_opt_list].
    destruct (get_tool_definitions (rt_bodies rt) (n :: names)) as [|d defs] eqn:Hd.
    + simpl in *.
      split_and!; first [done | intros Hne; by rewrite <- Hn in Hne].
    + cbn [truthy_list].
      split_and!;
        first [ done
              | intros He; rewrite He in Hn; done
              | intros _; by exists (d :: defs) ].
Qed.

(** X9: whatever the conversation, the Anthropic request holds only user
    and assistant entries, in the order of the conversation, one for each
    user or assistant message; system and tool messages leave no trace. *)
Theorem anthropic_messages_roles (messages : list Message) :
  Forall (fun rc => rc.1 = "user" ∨ rc.1 = "assistant")
    (anthropic_messages messages) ∧
  anthropic_messages messages =
    anthropic_messages
      (filter (fun msg => role msg ≠ SYSTEM ∧ role msg ≠ TOOL) messages) ∧
  (∀ l1 l2, anthropic_messages (l1 ++ l2) =
            anthropic_messages l1 ++ anthropic_messages l2).
Proof.
  split_and!.
  - unfold anthropic_messages. apply Forall_fmap, Forall_forall.
    intros msg [[Hr|Hr] _]%list_elem_of_filter; simpl; rewrite Hr; auto.
  - unfold anthropic_messages. f_equal.
    induction messages as [|msg messages IH]; [done|].
    destruct (role msg) eqn:Hr.
    + rewrite (filter_cons_True _ msg) by (rewrite Hr; auto).
      rewrite (filter_cons_True (fun m => role m ≠ SYSTEM ∧ role m ≠ TOOL))
        by (rewrite Hr; done).
      rewrite (filter_cons_True _ msg) by (rewrite Hr; auto). by f_equal.
    + rewrite (filter_cons_True _ msg) by (rewrite Hr; auto).
      rewrite (filter_cons_True (fun m => role m ≠ SYSTEM ∧ role m ≠ TOOL))
        by (rewrite Hr; done).
      rewrite (filter_cons_True _ msg) by (rewrite Hr; auto). by f_equal.
    + rewrite (filter_cons_False _ msg) by (rewrite Hr; by intros [|]).
      rewrite (filter_cons_False (fun m => role m ≠ SYSTEM ∧ role m ≠ TOOL))
        by (rewrite Hr; by intros [? ?]).
      done.
    + rewrite (filter_cons_False _ msg) by (rewrite Hr; by intros [|]).
      rewrite (filter_cons_False (fun m => role m ≠ SYSTEM ∧ role m ≠ TOOL))
        by (rewrite Hr; by intros [? ?]).
      done.
  - intros l1 l2. unfold anthropic_messages. by rewrite filter_app, fmap_app.
Qed.

(** X22: how the adapters fail.  An exception of the backend call leaves
    either adapter unchanged, after that one call and without a retry; an
    OpenAI response without choices makes the adapter raise an
    [IndexError] before any payload is evaluated. *)
Theorem adapter_failures {W : Type}
    (messages : list Message) (system_prompt : string)
    (tools : option (list ToolDef)) (kwargs : Kwargs) (model : string)
    (w w1 : W) :
  (∀ (create : AnthropicRequest -> Ext W AnthropicResponse) (e : Exn),
     create (anthropic_request model messages system_prompt tools kwargs) w =
       (inl e, w1) →
     complete (AnthropicProvider create model) messages system_prompt tools
       kwargs w = (inl e, w1)) ∧
  (∀ (create : OpenAIRequest -> Ext W OpenAIResponse)
     (eval : string -> Ext W Evaluated) (invalid : Any -> string) (e : Exn),
     create (openai_request model messages system_prompt tools kwargs) w =
       (inl e, w1) →
     complete (OpenAIProvider create eval invalid model) messages
       system_prompt tools kwargs w = (inl e, w1)) ∧
  (∀ (create : OpenAIRequest -> Ext W OpenAIResponse)
     (eval : string -> Ext W Evaluated) (invalid : Any -> string)
     (usage : option (Z * Z)),
     create (openai_request model messages system_prompt tools kwargs) w =
       (inr (mkOpenAIResponse [] usage), w1) →
     complete (OpenAIProvider create eval invalid model) messages
       system_prompt tools kwargs w =
       (inl (PyExn "IndexError" "list index out of range"), w1)).
Proof.
  split_and!.
  - intros create e H. simpl. by rewrite H.
  - intros create eval invalid e H. simpl. by rewrite H.
  - intros create eval invalid usage H. simpl. by rewrite H.
Qed.

(** ** The loop *)

(** A stretch of the log without provider calls. *)
Lemma provider_calls_zero (evs : list Event) :
  provider_calls evs = 0%nat → Forall (fun ev => is_complete ev = false) evs.
Proof.
  unfold provider_calls.
  induction evs as [|[msgs sp t k|n a] evs IH]; intros H; [done| |].
  - by rewrite filter_cons_True in H by done.
  - rewrite filter_cons_False in H by (simpl; auto). constructor; auto.
Qed.

(** The loop only ever appends to its working copy: each conversation it
    hands to the provider, and the copy it ends with, extend the copy it
    was entered with; and every result it returns has its tool message in
    the final copy, provided that held of the results it was entered
    with. *)
Lemma chat_loop_conversations {W : Type} (bodies : ToolBodies W) (fuel : nat) :
  ∀ (self : Agent W) (max_iterations : Z) (cur : loc)
    (trs : list ToolResult) (iterations : Z) (s : State W),
  (Z.to_nat (max_iterations - iterations) ≤ fuel)%nat →
  Forall (fun r => result_message r ∈ heap s !!! cur) trs →
  ∃ out s' evs,
    chat_loop bodies fuel self max_iterations cur trs iterations s = (out, s') ∧
    log s' = log s ++ evs ∧
    heap s !!! cur `prefix_of` heap s' !!! cur ∧
    Forall (fun ev => match ev with
                      | EvComplete msgs _ _ _ => heap s !!! cur `prefix_of` msgs
                      | EvExecute _ _ => True
                      end) evs ∧
    (∀ m trs', out = Returned (m, trs') →
       Forall (fun r => result_message r ∈ heap s' !!! cur) trs').
Proof.
  induction fuel as [|fuel IH];
    intros self max_iterations cur trs iterations s Hfuel Htrs.
  - assert (Hge : (iterations <? max_iterations) = false) by (apply Z.ltb_ge; lia).
    simpl. rewrite Hge. exists (Returned (limit_message, trs)), s, [].
    rewrite app_nil_r. split_and!; try done. by intros m trs' [= _ <-].
  - destruct (decide (iterations < max_iterations)) as [Hlt|Hge].
    + destruct (complete (provider self) (heap s !!! cur)
                  (cfg_system_prompt (config self)) (chat_tools self)
                  (chat_kwargs self) (world s)) as [[e|response] w] eqn:Hc.
      * rewrite chat_loop_step by done. cbv zeta. rewrite Hc.
        eexists _, _, [_]. split_and!; try done.
        by apply Forall_singleton.
      * destruct (truthy_opt_list (tool_calls response)) eqn:Htruthy.
        -- destruct (batch_total bodies (default [] (tool_calls response)) w)
             as (rs & x & w' & bevs & Hb).
           destruct (chat_loop_tool_turn bodies fuel self max_iterations cur
                       trs iterations s response w rs x w' bevs Hlt Hc
                       Htruthy Hb)
             as (s2 & Hw & Hlog & Hcur & Hfr & ->).
           destruct (batch_facts bodies _ _ _ _ _ _ Hb) as (Hpc & _).
           assert (Hext : heap s !!! cur `prefix_of` heap s2 !!! cur)
             by (rewrite Hcur; by apply prefix_app_r).
           assert (Hbevs : Forall (fun ev => match ev with
                      | EvComplete msgs _ _ _ => heap s !!! cur `prefix_of` msgs
                      | EvExecute _ _ => True
                      end) bevs).
           { eapply Forall_impl; [exact (provider_calls_zero _ Hpc)|].
             by intros [msgs sp t k|n a]. }
           destruct x as [e|].
           ++ eexists _, _, (_ :: bevs). split_and!; try done.
              by constructor.
           ++ destruct (IH self max_iterations cur (trs ++ rs)
                          (iterations + 1) s2)
                as (out & s' & evs' & Hl & Hlog' & Hpre & Hseen & Hfed);
                [lia| |].
              { rewrite Hcur. apply Forall_app. split.
                - eapply Forall_impl; [exact Htrs|]. intros r Hr. simpl in Hr.
                  set_solver.
                - apply Forall_forall. intros r Hr.
                  apply elem_of_app. right. apply elem_of_cons. right.
                  by apply list_elem_of_fmap_2. }
              exists out, s', ([EvComplete (heap s !!! cur)
                                  (cfg_system_prompt (config self))
                                  (chat_tools self) (chat_kwargs self)]
                               ++ bevs ++ evs').
              split_and!; try done.
              ** rewrite Hlog', Hlog. simpl. by rewrite <- !app_assoc.
              ** by etrans.
              ** apply Forall_app. split; [by apply Forall_singleton|].
                 apply Forall_app. split; [done|].
                 eapply Forall_impl; [exact Hseen|].
                 intros [msgs sp t k|n a]; [|done]. intros Hp. by etrans.
        -- rewrite chat_loop_step by done. cbv zeta. rewrite Hc, Htruthy.
           eexists _, _, [_]. split_and!; try done.
           ++ by apply Forall_singleton.
           ++ by intros m trs' [= _ <-].
    + assert (Hf : (iterations <? max_iterations) = false) by (apply Z.ltb_ge; lia).
      simpl. rewrite Hf. exists (Returned (limit_message, trs)), s, [].
      rewrite app_nil_r. split_and!; try done. by intros m trs' [= _ <-].
Qed.

Section LoopExtras.
Context {W : Type} (bodies : ToolBodies W).
Implicit Types (self : Agent W) (s : State W) (tc : ToolCall).

(** X10: [Agent.chat] only appends to the conversation: every list of
    messages it hands to [provider.complete], and the working copy it ends
    with, start with the caller's messages. *)
Theorem chat_conversation_append_only self (messages : loc) (N : Z) s :
  let run := chat bodies self messages N s in
  ∃ evs,
    log run.2 = log s ++ evs ∧
    Forall (fun ev => match ev with
                      | EvComplete msgs _ _ _ =>
                          heap s !!! messages `prefix_of` msgs
                      | EvExecute _ _ => True
                      end) evs ∧
    heap s !!! messages `prefix_of` heap run.2 !!! fresh (dom (heap s)).
Proof.
  cbv zeta. rewrite chat_eq. cbv zeta.
  match goal with |- context [chat_loop _ ?f _ ?m ?c ?t ?i ?s1] =>
    destruct (chat_loop_conversations bodies f self m c t i s1)
      as (out & s' & evs & Hl & Hlog & Hpre & Hseen & _); [lia|done|]
  end.
  rewrite Hl. simpl in *. rewrite lookup_total_insert_eq in Hpre, Hseen.
  exists evs. by split_and!.
Qed.

(** X11: every tool result [Agent.chat] returns has also been fed to the
    conversation: the working copy holds a tool message with the result's
    identifier and its rendered content. *)
Theorem chat_results_in_conversation self (messages : loc) (N : Z) s
    (m : Message) (trs : list ToolResult) :
  (chat bodies self messages N s).1 = Returned (m, trs) →
  Forall (fun r => result_message r ∈
                   heap (chat bodies self messages N s).2
                     !!! fresh (dom (heap s))) trs.
Proof.
  rewrite chat_eq. cbv zeta.
  match goal with |- context [chat_loop _ ?f _ ?mx ?c ?t ?i ?s1] =>
    destruct (chat_loop_conversations bodies f self mx c t i s1)
      as (out & s' & evs & Hl & _ & _ & _ & Hfed); [lia|done|]
  end.
  rewrite Hl. simpl. intros ->. by apply (Hfed m).
Qed.

(** X12: with a cap of zero or less [Agent.chat] calls neither the provider
    nor a tool; it copies the caller's list and returns the advisory
    message with no results. *)
Theorem chat_zero_cap self (messages : loc) (N : Z) s :
  N ≤ 0 →
  chat bodies self messages N s =
    (Returned (limit_message, []),
     mkState (<[fresh (dom (heap s)) := heap s !!! messages]> (heap s))
       (world s) (log s)).
Proof.
  intros HN. rewrite chat_eq. cbv zeta.
  assert (Hge : (0 <? N) = false) by (apply Z.ltb_ge; lia).
  destruct (Z.to_nat N); simpl; by rewrite Hge.
Qed.

(** X13: when the first response carries no tool calls, [Agent.chat]
    returns that response and no results after this one provider call; no
    tool runs and nothing is appended to the working copy. *)
Theorem chat_plain_answer self (messages : loc) (N : Z) s
    (response : Message) (w : W) :
  1 ≤ N →
  complete (provider self) (heap s !!! messages)
    (cfg_system_prompt (config self)) (chat_tools self)
    (chat_kwargs self) (world s) = (inr response, w) →
  truthy_opt_list (tool_calls response) = false →
  chat bodies self messages N s =
    (Returned (response, []),
     mkState (<[fresh (dom (heap s)) := heap s !!! messages]> (heap s)) w
       (log s ++ [EvComplete (heap s !!! messages)
                    (cfg_system_prompt (config self)) (chat_tools self)
                    (chat_kwargs self)])).
Proof.
  intros HN Hresp Hfalsy. rewrite chat_eq. cbv zeta.
  destruct (Z.to_nat N) as [|fuel] eqn:Hfuel; [lia|].
  rewrite chat_loop_step by lia. cbv zeta. cbn [heap world log].
  by rewrite lookup_total_insert_eq, Hresp, Hfalsy.
Qed.


(** X15: what the model reads of a tool call that was answered.  The tool
    message has the call's identifier and the role [tool]; when the call
    ended with an error (unknown tool or an [Exception] of [execute]) it
    holds the error text; otherwise it holds [str] of the value when the
    value is truthy and the empty string when it is not. *)
Theorem tool_message_of_execution self tc s (r : ToolResult) (s' : State W) :
  _execute_tool bodies self tc s = (Returned r, s') →
  tool_call_id (tool_message tc r) = Some (tc_id tc) ∧
  role (tool_message tc r) = TOOL ∧
  content (tool_message tc r) =
    match tr_error r with
    | Some err => err
    | None => if py_bool (tr_result r) then py_str (tr_result r) else ""
    end.
Proof.
  rewrite _execute_tool_eq.
  destruct (get_tool bodies (tc_name tc)) as [tool|].
  - destruct (execute tool (tc_arguments tc) (world s)) as [[e|v] w]; simpl.
    + destruct (is_exception e); [|done].
      intros [= <- _].
      split_and!; first [done | apply tool_message_content_error].
    + intros [= <- _].
      split_and!;
        first [ done
              | unfold tool_message_content; simpl; by destruct (py_bool v) ].
  - intros [= <- _].
    split_and!; first [done | apply tool_message_content_error].
Qed.
End LoopExtras.

(** ** The routes *)

(** X16: for an agent identifier that is not registered the chat route
    raises 404 with the identifier in its detail, and does so before it
    allocates a list or calls anything: the state is as it was.  The
    registered identifiers are [assistant] and [coder]. *)
Theorem chat_route_unknown_agent {W : Type} (rt : Runtime W)
    (request : ChatRequest) (s : State W) :
  (DEFAULT_AGENTS !! req_agent_id request = None →
   chat_route rt request s =
     (Raised (HTTPException 404
                ("Agent not found: " +:+ req_agent_id request)), s)) ∧
  (DEFAULT_AGENTS !! req_agent_id request = None ↔
   req_agent_id request ∉ ["assistant"; "coder"]).
Proof.
  split.
  - intros Hn. unfold chat_route, get_agent. by rewrite Hn.
  - split.
    + intros Hn Hin.
      repeat (apply elem_of_cons in Hin as [Hin|Hin];
              [by rewrite Hin in Hn|]).
      by apply elem_of_nil in Hin.
    + intros Hnot. destruct (DEFAULT_AGENTS !! req_agent_id request)
        as [cfg|] eqn:Hc; [|done].
      apply elem_of_list_to_map_2 in Hc. unfold DEFAULT_AGENTS_items in Hc.
      exfalso. apply Hnot.
      repeat (apply elem_of_cons in Hc as [[= -> _]|Hc]; [set_solver|]).
      by apply elem_of_nil in Hc.
Qed.


(** X18: when the request names a conversation and the agent's loop
    returns, the response carries that conversation identifier, the loop's
    message, and the loop's results (absent when there are none); the route
    adds nothing to the state the loop left. *)
Theorem chat_route_success {W : Type} (rt : Runtime W)
    (request : ChatRequest) (cfg : AgentConfig) (s s' : State W)
    (m : Message) (trs : list ToolResult) (cid : string) :
  DEFAULT_AGENTS !! req_agent_id request = Some cfg →
  req_conversation_id request = Some cid →
  cid ≠ "" →
  (let messages := fresh (dom (heap s)) in
   chat (rt_bodies rt) (Agent_init rt cfg) messages 10
     (mkState
        (<[messages := [mkMessage USER (req_message request)
                          None None None None]]> (heap s))
        (world s) (log s)) = (Returned (m, trs), s')) →
  chat_route rt request s =
    (Returned
       (mkApiResponse true
          (Some (mkChatResponse cid m
                   (if truthy_list trs then Some trs else None)))
          None None), s').
Proof.
  intros Hcfg Hcid Hne Hc. cbv zeta in Hc.
  unfold chat_route, get_agent. rewrite Hcfg. simpl.
  unfold bind at 1, new_list at 1, try_except, bind at 1. rewrite Hc.
  rewrite Hcid. simpl.
  destruct (String.eqb cid "") eqn:E; [by apply String.eqb_eq in E|].
  reflexivity.
Qed.

(** X19: the two agent routes agree with the registry: both raise the same
    404 for an unregistered identifier; for a registered one the first
    reports the agent active with the tool names of its configuration, and
    the second returns the definitions of those of the names that are
    registered tools, in order. *)
Theorem agent_routes_agree {W : Type} (rt : Runtime W) (agent_id : string) :
  match DEFAULT_AGENTS !! agent_id with
  | None =>
      get_agent_info agent_id = inl (agent_not_found agent_id) ∧
      get_agent_tools rt agent_id = inl (agent_not_found agent_id)
  | Some cfg =>
      ∃ info defs,
        get_agent_info agent_id = inr info ∧
        get_agent_tools rt agent_id = inr (agent_id, defs) ∧
        info_tools info = cfg_tools cfg ∧
        info_is_active info = true ∧
        td_name <$> defs =
          filter (fun n => is_Some (TOOLS (rt_bodies rt) !! n)) (info_tools info)
  end.
Proof.
  unfold get_agent_info, get_agent_tools, get_agent.
  destruct (DEFAULT_AGENTS !! agent_id) as [cfg|]; simpl; [|done].
  eexists _, _. split_and!; try done. simpl.
  apply get_tool_definitions_td_names.
Qed.

(** X20: listing and fetching agree: an agent summary is listed exactly
    when fetching its identifier returns an agent with the same name,
    description and tools. *)
Theorem list_agents_matches_lookup (sm : AgentSummary) :
  sm ∈ list_agents ↔
  get_agent_info (sum_id sm) =
    inr (mkAgentInfo (sum_id sm) (sum_name sm) (sum_description sm)
           (sum_tools sm) true).
Proof.
  split.
  - intros Hin. unfold list_agents, DEFAULT_AGENTS_items in Hin. simpl in Hin.
    repeat (apply elem_of_cons in Hin as [->|Hin]; [reflexivity|]).
    by apply elem_of_nil in Hin.
  - unfold get_agent_info.
    destruct (DEFAULT_AGENTS !! sum_id sm) as [cfg|] eqn:Hc; [|done].
    intros [= Hid Hname Hdesc Htools].
    apply elem_of_list_to_map_2 in Hc.
    apply (list_elem_of_fmap_2
             (fun kc => mkAgentSummary (cfg_id kc.2) (cfg_name kc.2)
                          (cfg_description kc.2) (cfg_tools kc.2))) in Hc.
    simpl in Hc. rewrite Hid, Hname, Hdesc, Htools in Hc. by destruct sm.
Qed.

(** X21: the readiness probe never reports anything but [ok].  It always
    carries an [ai_provider] check, which is a warning exactly when neither
    API key is set to a non-empty string; it carries a [database] check
    exactly when a database URL is set; it carries no other check. *)
Theorem readiness_always_ok (settings : Settings) :
  let r := readiness settings in
  ready_status r = "ok" ∧
  (ready_checks r !! "ai_provider") ≫= (fun c => c !! "status") =
    Some (if has_anthropic settings || has_openai settings
          then "ok" else "warning") ∧
  (is_Some (ready_checks r !! "database") ↔
   truthy_opt_str (database_url settings) = true) ∧
  (∀ k, is_Some (ready_checks r !! k) → k = "ai_provider" ∨ k = "database").
Proof.
  unfold readiness. cbv zeta.
  destruct (has_anthropic settings || has_openai settings),
           (truthy_opt_str (database_url settings));
    (split_and!; [done|by vm_compute| |]).
  all: try (split; [done|intros _; by eexists]).
  all: try (split; [intros [? H]; by vm_compute in H|done]).
  all: intros k [v Hk]; cbn [ready_checks] in Hk;
       repeat (rewrite lookup_insert in Hk; case_decide; [subst; by auto|]);
       by rewrite lookup_empty in Hk.
Qed.

(** ** The further properties at concrete inputs *)

(** X6 on a response whose one tool call has a payload that evaluates to a
    dict. *)
Lemma openai_message_wellformed_witness :
  let payload := "{'expression': '2 + 2'}" in
  ∃ m,
    complete (OpenAIProvider (rt_openai_create (Mock.runtime [] payload))
                Mock.eval (rt_invalid (Mock.runtime [] payload))
                "gpt-4-turbo-preview")
      [Mock.user_message] "sys" None (mkKwargs None None) [] = (inr m, []) ∧
    role m = ASSISTANT ∧
    tool_calls m ≠ Some [].
Proof.
  eexists. split; [vm_compute; reflexivity|].
  edestruct (openai_message_wellformed
               (rt_openai_create (Mock.runtime [] "{'expression': '2 + 2'}"))
               Mock.eval
               (rt_invalid (Mock.runtime [] "{'expression': '2 + 2'}"))
               "gpt-4-turbo-preview" [Mock.user_message] "sys" None
               (mkKwargs None None) [] [] [])
    as (Hrole & _ & Hcalls & _);
    [reflexivity | reflexivity | vm_compute; reflexivity |].
  split; [exact Hrole|exact Hcalls].
Defined.

(** X8 on the coder agent, which has no tool names, and so no registered
    one. *)
Lemma agent_request_tools_witness :
  areq_tools (anthropic_request "m" [Mock.user_message] "sys"
                (chat_tools (Agent_init (Mock.runtime [] "") coder_config))
                (mkKwargs None None)) = None.
Proof.
  apply (proj1 (proj2 (agent_request_tools (Mock.runtime [] "") coder_config
                         "m" [Mock.user_message] "sys" (mkKwargs None None)))).
  reflexivity.
Defined.

(** X11 on the run with three tool calls. *)
Lemma chat_results_in_conversation_witness :
  let run := chat Mock.bodies (Mock.assistant Mock.script_three) 1%positive 10
               Mock.start in
  ∃ m trs,
    run.1 = Returned (m, trs) ∧
    length trs = 3%nat ∧
    Forall (fun r => result_message r ∈
                     heap run.2 !!! fresh (dom (heap Mock.start))) trs.
Proof.
  eexists _, _. split; [vm_compute; reflexivity|]. split; [reflexivity|].
  eapply (chat_results_in_conversation Mock.bodies
            (Mock.assistant Mock.script_three) 1%positive 10 Mock.start).
  vm_compute. reflexivity.
Defined.

(** X12 with a cap of zero. *)
Lemma chat_zero_cap_witness :
  0 ≤ 0 ∧
  (chat Mock.bodies (Mock.assistant Mock.script_greedy) 1%positive 0
     Mock.start).1 = Returned (limit_message, []).
Proof.
  assert (H : 0 ≤ 0) by lia. split; [exact H|].
  by rewrite chat_zero_cap.
Defined.

(** X13 on a backend that answers in plain text at once. *)
Lemma chat_plain_answer_witness :
  1 ≤ 10 ∧
  ∃ response s',
    chat Mock.bodies (Mock.assistant []) 1%positive 10 Mock.start =
      (Returned (response, []), s') ∧
    content response = "4".
Proof.
  assert (H : 1 ≤ 10) by lia. split; [exact H|].
  eexists _, _. split.
  - eapply chat_plain_answer;
      [exact H | vm_compute; reflexivity | reflexivity].
  - reflexivity.
Defined.

(** X16 on an identifier nobody registered. *)
Lemma chat_route_unknown_agent_witness :
  DEFAULT_AGENTS !! "nobody" = None ∧
  chat_route (Mock.runtime [] "") (Mock.request "nobody") Mock.empty_start =
    (Raised (HTTPException 404 "Agent not found: nobody"), Mock.empty_start).
Proof.
  split; [reflexivity|].
  apply (proj1 (chat_route_unknown_agent (Mock.runtime [] "")
                  (Mock.request "nobody") Mock.empty_start)).
  reflexivity.
Defined.

(** X18 on a request that names its conversation. *)
Lemma chat_route_success_witness :
  let request :=
    mkChatRequest "what is 2+2" "assistant" (Some "conv-1") None false in
  ∃ resp d,
    (chat_route (Mock.runtime [] "") request Mock.empty_start).1 = Returned resp ∧
    data resp = Some d ∧
    resp_conversation_id d = "conv-1" ∧
    resp_tool_results d = None.
Proof.
  eexists _, _. split.
  - erewrite (chat_route_success (Mock.runtime [] "") _ assistant_config);
      [reflexivity | reflexivity | reflexivity | done
      | vm_compute; reflexivity].
  - split_and!; reflexivity.
Defined.

(** X22 on a backend that is unreachable from the start. *)
Lemma adapter_failures_witness :
  complete (provider (Mock.assistant [inl Mock.connection_error]))
    [Mock.user_message] "sys" None (mkKwargs None None) [] =
  (inl Mock.connection_error,
   [anthropic_request "claude-3-5-sonnet-20241022" [Mock.user_message] "sys"
      None (mkKwargs None None)]).
Proof.
  apply (proj1 (adapter_failures [Mock.user_message] "sys" None
                  (mkKwargs None None) "claude-3-5-sonnet-20241022" [] _)).
  reflexivity.
Defined.

(** X15 on the calculator call of [2 - 2], whose value is falsy. *)
Lemma tool_message_of_execution_witness :
  let tc := mkToolCall "toolu_C" "calculator" (Mock.expression "2 - 2") in
  ∃ r s',
    _execute_tool Mock.bodies (Mock.assistant []) tc Mock.start =
      (Returned r, s') ∧
    tool_call_id (tool_message tc r) = Some "toolu_C" ∧
    content (tool_message tc r) = "".
Proof.
  eexists _, _. split; [vm_compute; reflexivity|].
  edestruct (tool_message_of_execution Mock.bodies (Mock.assistant [])
               (mkToolCall "toolu_C" "calculator" (Mock.expression "2 - 2"))
               Mock.start) as (Hid & _ & Hcontent);
    [vm_compute; reflexivity|].
  split; [exact Hid|exact Hcontent].
Defined.
